(** * Progressive neural architecture search: the reward manager and the
      ranking script

    A shallow embedding of [rank_architectures.py] and of
    [NetworkManager.get_rewards] ([manager.py]), with the Python built-ins
    they call, and the properties of the two programs.

    Text is ASCII: a [string] is the decoded content of a text file whose
    characters all have code points below 128. *)

From Stdlib Require Import ZArith NArith Ascii String List Bool Lia.
From Stdlib Require Import Permutation Sorted SpecFloat.
From stdpp Require Import base option list sorting gmap strings.

Local Open Scope string_scope.
Local Open Scope list_scope.

(** ** Python exceptions and results *)

Inductive pyexn :=
  | ValueError
  | OverflowError
  | IndexError
  | TypeError
  | UnboundLocalError (name : string)
  | IsADirectoryError
  | OtherError (code : nat).

(** [UnboundLocalError] is a subclass of [NameError]; no other exception of
    the model is. *)
Definition is_NameError (e : pyexn) : bool :=
  match e with UnboundLocalError _ => true | _ => false end.

Inductive result (A : Type) :=
  | Ok (a : A)
  | Raise (e : pyexn).
Arguments Ok {A} a.
Arguments Raise {A} e.

#[export] Instance result_ret : MRet result := λ A a, Ok a.
#[export] Instance result_bind : MBind result := λ A B f m,
  match m with Ok a => f a | Raise e => Raise e end.

(** ** Python floats

    A Python [float] is an IEEE 754 binary64 value; [spec_float] with
    precision 53 and maximal exponent 1024 is its model. *)

Module Float.

Definition prec : Z := 53.
Definition emax : Z := 1024.

Definition nan : spec_float := S754_nan.
Definition inf (neg : bool) : spec_float := S754_infinity neg.

Definition is_nan (f : spec_float) : bool :=
  match f with S754_nan => true | _ => false end.

(** The comparisons [<], [==] and [>=] of two floats. *)
Definition lt (x y : spec_float) : bool := SFltb x y.
Definition eq (x y : spec_float) : bool := SFeqb x y.
Definition ge (x y : spec_float) : bool := SFleb y x.

(** The order of the floats that are not NaN is the lexicographic order
    of these triples: the class (negative infinity, negative, zero,
    positive, positive infinity), then exponent and mantissa, both negated
    for a negative float. *)
Definition rank (f : spec_float) : Z * Z * Z :=
  match f with
  | S754_nan => (0, 0, 0)
  | S754_zero _ => (0, 0, 0)
  | S754_infinity true => (-2, 0, 0)
  | S754_infinity false => (2, 0, 0)
  | S754_finite true m e => (-1, - e, Zneg m)
  | S754_finite false m e => (1, e, Zpos m)
  end%Z.

Definition lex_compare (a b : Z * Z * Z) : comparison :=
  match (a.1.1 ?= b.1.1)%Z with
  | Eq => match (a.1.2 ?= b.1.2)%Z with
          | Eq => (a.2 ?= b.2)%Z
          | c => c
          end
  | c => c
  end.

(** The double nearest to [m * 10 ^ e] (ties to even), which is what the
    string conversion computes for a decimal literal. *)
Definition of_decimal (neg : bool) (m : N) (e : Z) : spec_float :=
  match m with
  | N0 => S754_zero neg
  | Npos p =>
      match e with
      | Zneg k =>
          SFdiv prec emax (S754_finite neg p 0)
                (S754_finite false (Pos.pow 10 k) 0)
      | Z0 => binary_round prec emax neg p 0
      | Zpos k => binary_round prec emax neg (p * Pos.pow 10 k) 0
      end
  end.

(** [float(n)] for an [int]: the nearest double, [OverflowError] beyond the
    largest one. *)
Definition of_int (z : Z) : result spec_float :=
  match binary_normalize prec emax z 0 false with
  | S754_infinity _ => Raise OverflowError
  | f => Ok f
  end.

(** [int(x)] for a float: truncation towards zero. *)
Definition to_int (f : spec_float) : result Z :=
  match f with
  | S754_nan => Raise ValueError
  | S754_infinity _ => Raise OverflowError
  | S754_zero _ => Ok 0%Z
  | S754_finite s m e =>
      let a := Z.shiftl (Zpos m) e in Ok (if s then Z.opp a else a)
  end.

End Float.

(** ** Conversion of strings to numbers: [int(s)] and [float(s)] *)

Module Str.

Definition code (c : ascii) : N := N_of_ascii c.

(** Characters that the conversions strip at both ends: tab, line feed,
    vertical tab, form feed, carriage return and space. *)
Definition is_space (c : ascii) : bool :=
  ((9 <=? code c) && (code c <=? 13) || (code c =? 32))%N.

Definition is_digit (c : ascii) : bool :=
  ((48 <=? code c) && (code c <=? 57))%N.

Definition digit_val (c : ascii) : N := (code c - 48)%N.

Definition lower (c : ascii) : ascii :=
  if ((65 <=? code c) && (code c <=? 90))%N
  then ascii_of_N (code c + 32) else c.

Fixpoint lowercase (s : string) : string :=
  match s with
  | EmptyString => EmptyString
  | String c t => String (lower c) (lowercase t)
  end.

Fixpoint lstrip (s : string) : string :=
  match s with
  | String c t => if is_space c then lstrip t else s
  | EmptyString => EmptyString
  end.

Fixpoint rstrip (s : string) : string :=
  match s with
  | EmptyString => EmptyString
  | String c t =>
      match rstrip t with
      | EmptyString => if is_space c then EmptyString else String c EmptyString
      | t' => String c t'
      end
  end.

Definition strip (s : string) : string := rstrip (lstrip s).

(** An optional sign; [true] is a minus. *)
Definition sign (s : string) : bool * string :=
  match s with
  | String c t =>
      if Ascii.eqb c "-" then (true, t)
      else if Ascii.eqb c "+" then (false, t)
      else (false, s)
  | EmptyString => (false, s)
  end.

(** [(["_"] digit)*]: the digits read and what is left. *)
Fixpoint more_digits (s : string) : list N * string :=
  match s with
  | String c t =>
      if is_digit c then
        let '(ds, r) := more_digits t in (digit_val c :: ds, r)
      else if Ascii.eqb c "_" then
        match t with
        | String d t' =>
            if is_digit d then
              let '(ds, r) := more_digits t' in (digit_val d :: ds, r)
            else ([], s)
        | EmptyString => ([], s)
        end
      else ([], s)
  | EmptyString => ([], EmptyString)
  end.

(** [digitpart ::= digit (["_"] digit)*] *)
Definition digitpart (s : string) : option (list N * string) :=
  match s with
  | String c t =>
      if is_digit c then
        let '(ds, r) := more_digits t in Some (digit_val c :: ds, r)
      else None
  | EmptyString => None
  end.

Definition decimal (ds : list N) : N :=
  fold_left (fun acc d => (10 * acc + d)%N) ds 0%N.

(** The most digits that [int] converts: the default of
    [sys.int_max_str_digits] (CPython 3.11 and later, and the patched
    releases of 3.7 to 3.10). Every digit counts, leading zeros too;
    sign, underscores and stripped characters do not. *)
Definition max_str_digits : nat := 4300.

(** [int(s)], base 10. *)
Definition to_int (s : string) : result Z :=
  let '(neg, body) := sign (strip s) in
  match digitpart body with
  | Some (ds, EmptyString) =>
      if (max_str_digits <? length ds)%nat then Raise ValueError
      else
        let n := Z.of_N (decimal ds) in Ok (if neg then Z.opp n else n)
  | _ => Raise ValueError
  end.

(** The exponent of a float literal: [("e" | "E") [sign] digitpart], or
    nothing. *)
Definition exponent (s : string) : option (Z * string) :=
  match s with
  | String c t =>
      if Ascii.eqb (lower c) "e" then
        let '(neg, body) := sign t in
        match digitpart body with
        | Some (ds, r) =>
            let n := Z.of_N (decimal ds) in
            Some (if neg then Z.opp n else n, r)
        | None => None
        end
      else Some (0%Z, s)
  | EmptyString => Some (0%Z, EmptyString)
  end.

(** [number ::= [digitpart] "." digitpart | digitpart ["."]]: the digits
    before and after the point, and what is left. *)
Definition number (s : string) : option (list N * list N * string) :=
  match s with
  | String c t =>
      if Ascii.eqb c "." then
        match digitpart t with
        | Some (fs, r) => Some ([], fs, r)
        | None => None
        end
      else
        match digitpart s with
        | Some (ds, String d t') =>
            if Ascii.eqb d "." then
              match digitpart t' with
              | Some (fs, r) => Some (ds, fs, r)
              | None => Some (ds, [], t')
              end
            else Some (ds, [], String d t')
        | Some (ds, EmptyString) => Some (ds, [], EmptyString)
        | None => None
        end
  | EmptyString => None
  end.

(** *** What the properties of the conversions speak about *)



(** [float(s)] *)
Definition to_float (s : string) : result spec_float :=
  let '(neg, body) := sign (strip s) in
  let word := lowercase body in
  if String.eqb word "inf" || String.eqb word "infinity" then Ok (Float.inf neg)
  else if String.eqb word "nan" then Ok Float.nan
  else
    match number body with
    | Some (ds, fs, r) =>
        match exponent r with
        | Some (e, EmptyString) =>
            Ok (Float.of_decimal neg (decimal (ds ++ fs))
                  (e - Z.of_nat (length fs)))
        | _ => Raise ValueError
        end
    | None => Raise ValueError
    end.

End Str.

(** ** Lists: indexing, [range], [list.sort] and [sorted] *)

Module PyList.

Section Items.
Context {A : Type}.

(** An index as Python reads it: a negative one counts from the end. *)
Definition index (l : list A) (i : Z) : option nat :=
  let n := Z.of_nat (length l) in
  let j := if (i <? 0)%Z then (i + n)%Z else i in
  if ((0 <=? j) && (j <? n))%Z then Some (Z.to_nat j) else None.

(** [l[i]] *)
Definition getitem (l : list A) (i : Z) : result A :=
  match index l i with
  | Some j => match l !! j with Some x => Ok x | None => Raise IndexError end
  | None => Raise IndexError
  end.

(** [l[i] = x] *)
Definition setitem (l : list A) (i : Z) (x : A) : result (list A) :=
  match index l i with
  | Some j => Ok (<[j:=x]> l)
  | None => Raise IndexError
  end.
End Items.

(** [range(start, stop, step)] for a positive [step]. *)
Fixpoint range_from (fuel : nat) (start stop step : Z) : list Z :=
  match fuel with
  | O => []
  | S k =>
      if (start <? stop)%Z
      then start :: range_from k (start + step) stop step
      else []
  end.

Definition range (start stop step : Z) : list Z :=
  range_from (Z.to_nat (stop - start)) start stop step.

(** A [for] loop whose body may raise. *)
Fixpoint for_each {S I : Type} (body : S -> I -> result S)
    (s : S) (items : list I) : result S :=
  match items with
  | [] => Ok s
  | i :: rest =>
      match body s i with
      | Ok s' => for_each body s' rest
      | Raise e => Raise e
      end
  end.

Section Sort.
Context {A : Type} (ltb : A -> A -> bool).

(** [count_run]: the length of the run the list starts with, and whether
    that run is descending. A descending run is strictly descending; an
    ascending run goes on as long as no element is less than the one
    before it. *)
Fixpoint run_descending (prev : A) (l : list A) : nat :=
  match l with
  | x :: t => if ltb x prev then S (run_descending x t) else O
  | [] => O
  end.

Fixpoint run_ascending (prev : A) (l : list A) : nat :=
  match l with
  | x :: t => if ltb x prev then O else S (run_ascending x t)
  | [] => O
  end.

Definition count_run (l : list A) : nat * bool :=
  match l with
  | [] => (O, false)
  | [x] => (1, false)
  | x :: y :: t =>
      if ltb y x then (2 + run_descending y t, true)
      else (2 + run_ascending y t, false)
  end.

(** The binary search of [binarysort]: where [pivot] belongs in the
    sorted slice [a[l:r]]. *)
Fixpoint bisect (fuel : nat) (a : list A) (pivot : A) (l r : nat) : nat :=
  match fuel with
  | O => l
  | S k =>
      if (l <? r)%nat then
        let p := (l + (r - l) / 2)%nat in
        match a !! p with
        | Some x =>
            if ltb pivot x then bisect k a pivot l p
            else bisect k a pivot (S p) r
        | None => l
        end
      else l
  end.

Definition binary_insert (a : list A) (pivot : A) : list A :=
  let l := bisect (length a) a pivot 0 (length a) in
  take l a ++ pivot :: drop l a.

(** [binarysort]: [sorted_part] is sorted already, the elements of
    [rest] are inserted into it from left to right. *)
Definition binarysort (sorted_part rest : list A) : list A :=
  fold_left binary_insert rest sorted_part.

(** [list.sort] on a list of fewer than 64 elements: the leading run,
    reversed when it descends, then binary insertion of the rest. *)
Definition small_sort (l : list A) : list A :=
  let '(n, descending) := count_run l in
  let run := take n l in
  binarysort (if descending then rev run else run) (drop n l).

(** Stable insertion: [x] goes before the first element greater
    than it. *)
Fixpoint insert_right (x : A) (l : list A) : list A :=
  match l with
  | [] => [x]
  | y :: t => if ltb x y then x :: y :: t else y :: insert_right x t
  end.

Definition insertion_sort (l : list A) : list A :=
  fold_left (fun acc x => insert_right x acc) l [].

(** [list.sort]. Below 64 elements it is CPython's algorithm
    ([listsort], [count_run] and [binarysort] of CPython 3.6 to 3.12). A longer
    list CPython cuts into runs that it merges; the merges are not
    modelled, and the result here is the stable insertion sort: that
    is the result of the merges whenever [<] orders the keys
    consistently, which for floats means that no key is a NaN. *)
Definition list_sort (l : list A) : list A :=
  if (length l <? 64)%nat then small_sort l else insertion_sort l.

(** [list.sort(reverse=True)]: the list is reversed before and after
    the sort, which keeps equal elements in their original order. *)
Definition list_sort_reverse (l : list A) : list A :=
  rev (list_sort (rev l)).
End Sort.

(** [sorted(l, key=key, reverse=True)]: the keys are computed first, the
    elements then move along with their keys. *)
Definition sorted_reverse {A K : Type} (ltb : K -> K -> bool)
    (keys : list K) (l : list A) : list A :=
  snd <$> list_sort_reverse (fun p q => ltb (fst p) (fst q)) (zip keys l).

End PyList.
(** ** [rank_architectures.py] *)

Module RankArchitectures.

(** What an element of a parsed line can be. *)
Inductive value :=
  | VStr (s : string)
  | VInt (z : Z)
  | VFloat (f : spec_float).

(** [float(x)] *)
Definition py_float (x : value) : result value :=
  match x with
  | VStr s => f ← Str.to_float s; Ok (VFloat f)
  | VInt z => f ← Float.of_int z; Ok (VFloat f)
  | VFloat f => Ok (VFloat f)
  end.

(** [int(x)] *)
Definition py_int (x : value) : result value :=
  match x with
  | VStr s => z ← Str.to_int s; Ok (VInt z)
  | VInt z => Ok (VInt z)
  | VFloat f => z ← Float.to_int f; Ok (VInt z)
  end.

(** [s[:-1]] *)
Fixpoint drop_last (s : string) : string :=
  match s with
  | EmptyString => EmptyString
  | String c EmptyString => EmptyString
  | String c t => String c (drop_last t)
  end.

Definition slice_drop_last (x : value) : result value :=
  match x with
  | VStr s => Ok (VStr (drop_last s))
  | _ => Raise TypeError
  end.

(** [s.split(sep)] for a separator of one character. *)
Fixpoint split (sep : ascii) (s : string) : list string :=
  match s with
  | EmptyString => [EmptyString]
  | String c t =>
      if Ascii.eqb c sep then EmptyString :: split sep t
      else
        match split sep t with
        | f :: fs => String c f :: fs
        | [] => [String c EmptyString]
        end
  end.

Definition LF : ascii := "010"%char.
Definition CR : ascii := "013"%char.

(** Reading in text mode turns the line ends CR LF and CR into LF. *)
Fixpoint universal_newlines (s : string) : string :=
  match s with
  | EmptyString => EmptyString
  | String c t =>
      if Ascii.eqb c CR then
        match t with
        | String d t' =>
            if Ascii.eqb d LF then String LF (universal_newlines t')
            else String LF (universal_newlines t)
        | EmptyString => String LF EmptyString
        end
      else String c (universal_newlines t)
  end.

(** Iterating over a text file: its lines, each with its line feed; the
    last line has none when the file does not end with one. *)
Fixpoint file_lines (s : string) : list string :=
  match s with
  | EmptyString => []
  | String c t =>
      if Ascii.eqb c LF then String c EmptyString :: file_lines t
      else
        match file_lines t with
        | l :: ls => String c l :: ls
        | [] => [String c EmptyString]
        end
  end.

(** The body of the reading loop, lines 21 to 27: the list [temp] built
    from one line. *)
Definition convert_ids (temp : list value) : result (list value) :=
  PyList.for_each
    (fun temp i =>
       x ← PyList.getitem temp i;
       n ← py_int x;
       PyList.setitem temp i n)
    temp (PyList.range 1 (Z.of_nat (length temp)) 2).

Definition parse_line (line : string) : result (list value) :=
  let temp := VStr <$> split "," line in
  last ← PyList.getitem temp (-1);
  cut ← slice_drop_last last;
  temp ← PyList.setitem temp (-1) cut;
  first ← PyList.getitem temp 0;
  score ← py_float first;
  temp ← PyList.setitem temp 0 score;
  convert_ids temp.

(** Lines 18 to 29: the list [lines]. *)
Definition read_lines (text : string) : result (list (list value)) :=
  mapM parse_line (file_lines (universal_newlines text)).

(** Lines 31 and 32. *)
Definition refloat (line : list value) : result (list value) :=
  first ← PyList.getitem line 0;
  score ← py_float first;
  PyList.setitem line 0 score.

(** The key [x[0]] of line 34. The keys of this script are floats; the
    order of other values is not modelled. *)
Definition sort_key (x : list value) : result spec_float :=
  first ← PyList.getitem x 0;
  match first with
  | VFloat f => Ok f
  | _ => Raise TypeError
  end.

(** Line 34 *)
Definition sort_lines (lines : list (list value))
    : result (list (list value)) :=
  keys ← mapM sort_key lines;
  Ok (PyList.sorted_reverse Float.lt keys lines).

(** An argument of [print]. *)
Inductive printed :=
  | PValue (x : value)
  | PList (l : list value).

(** One call of [print]: its arguments. *)
Definition print_call : Type := list printed.

(** Lines 36 and 37: what is printed, and the exception that ends the
    loop early, if any. *)
Fixpoint print_lines (lines : list (list value))
    : list print_call * option pyexn :=
  match lines with
  | [] => ([], None)
  | line :: rest =>
      match PyList.getitem line 0 with
      | Ok first =>
          let '(out, err) := print_lines rest in
          ([PValue first; PList (drop 1 line)] :: out, err)
      | Raise e => ([], Some e)
      end
  end.

(** The file system: what a path names. *)
Inductive node :=
  | File (content : string)
  | Directory.

(** How a run of the script ends. *)
Inductive status :=
  | Finished
  | Exited (code : Z)
  | Uncaught (e : pyexn).

Record run := {
  stdout : list print_call;
  opened : list string;
  outcome : status
}.

Definition message : string :=
  "Please run `train.py` script to generate architectures first !".

Definition default_file : string := "train_history.csv".

(** Lines 9 to 12: the file to read, from the option [-f]. *)
Definition input_file (f : option string) : string :=
  match f with
  | Some path => path
  | None => default_file
  end.

(** The script, given the value of the option [-f] and the file system. *)
Definition main (f : option string) (fs : gmap string node) : run :=
  let file := input_file f in
  match fs !! file with
  | None =>
      {| stdout := [[PValue (VStr message)]]; opened := [];
         outcome := Exited 0 |}
  | Some Directory =>
      {| stdout := []; opened := [file];
         outcome := Uncaught IsADirectoryError |}
  | Some (File text) =>
      match lines ← read_lines text; lines ← mapM refloat lines;
            sort_lines lines with
      | Ok lines =>
          let '(out, err) := print_lines lines in
          {| stdout := out; opened := [file];
             outcome := match err with
                        | None => Finished
                        | Some e => Uncaught e
                        end |}
      | Raise e =>
          {| stdout := []; opened := [file]; outcome := Uncaught e |}
      end
  end.

(** *** What the properties of the script speak about *)

(** The line that a call of [print] shows: its field 0, then the list of
    the other fields. *)
Definition printed_line (p : print_call) : list value :=
  match p with
  | [PValue first; PList rest] => first :: rest
  | _ => []
  end.

(** A call of [print] shows a line: its field 0 and the list of the
    others. *)
Definition shows (p : print_call) (line : list value) : Prop :=
  exists first rest, line = first :: rest /\ p = [PValue first; PList rest].

(** The score of a line: its field 0, a float. *)
Definition score (line : list value) : option spec_float :=
  match line with
  | VFloat f :: _ => Some f
  | _ => None
  end.

(** The score of the line is equal ([==]) to [s]. *)
Definition score_is (s : spec_float) (line : list value) : bool :=
  match score line with
  | Some f => Float.eq f s
  | None => false
  end.

Definition nan_score (line : list value) : bool :=
  match score line with
  | Some f => Float.is_nan f
  | None => false
  end.

(** Of any two lines, the earlier has a score greater than or equal to
    ([>=]) that of the later. *)
Definition non_increasing (lines : list (list value)) : Prop :=
  forall (i j : nat) a b x y,
    (i < j)%nat -> lines !! i = Some a -> lines !! j = Some b ->
    score a = Some x -> score b = Some y -> Float.ge x y = true.

(** The lines with equal scores are in the same order in [after] as in
    [before]: for every score, the lines that have it form the same
    sequence. *)
Definition same_order_of_equals (before after : list (list value)) : Prop :=
  forall s, List.filter (score_is s) after = List.filter (score_is s) before.

(** *** The format of a line

    What [train.py] writes: the score as [str] shows a float, each input
    id as a decimal numeral, each operation by its name. *)









(** A field without a comma and without a line feed. *)
Fixpoint plain (s : string) : bool :=
  match s with
  | EmptyString => true
  | String c t => negb (Ascii.eqb c ",") && negb (Ascii.eqb c LF) && plain t
  end.

Fixpoint join (sep : string) (fields : list string) : string :=
  match fields with
  | [] => ""
  | [f] => f
  | f :: fs => f +:+ sep +:+ join sep fs
  end.

(** The line of a file that holds the given fields. *)
Definition csv_line (fields : list string) : string :=
  join "," fields +:+ String LF "".

(** An input id and the name of an operation, as two fields. *)
Definition id_then_name (p : string * string) : list string := [p.1; p.2].

(** *** Sample files *)

Definition text_of_lines (lines : list string) : string :=
  fold_right (fun l acc => String.append l (String LF acc)) EmptyString lines.

(** Three architectures, in the format that the script reads. *)
Definition history : string :=
  text_of_lines ["0.5,0,3x3 conv"; "0.75,1,5x5 conv"; "0.5,2,3x3 maxpool"].

(** A history in which one training run diverged. *)
Definition history_with_nan : string :=
  text_of_lines ["0.5,0,a"; "nan,1,b"; "0.75,2,c"].

(** A history with two equal scores and diverged runs. *)
Definition history_with_nan_and_ties : string :=
  text_of_lines ["1.0,0,b"; "0.0,0,x"; "1.0,0,a"; "nan,0,n1"; "3.0,0,t";
                 "nan,0,n2"; "nan,0,n3"].


Definition only (text : string) : gmap string node :=
  {[ default_file := File text ]}.

End RankArchitectures.
(** ** [manager.py]

    The deep-learning framework is outside the program: its calls are
    answered by an oracle over a state of its own, and every call is
    written to a trace with its answer. Sessions and graphs are objects
    with fresh identities; the set of open sessions is part of the
    state. *)

Module Manager.

Section Framework.
Context {obj model scalar : Type}.

Record Adam := { lr : spec_float; amsgrad : bool }.

Record ModelCheckpoint := {
  filepath : string;
  monitor_ : string;
  verbose_ : Z;
  save_best_only : bool;
  save_weights_only : bool
}.

(** The calls into the framework, with their arguments. *)
Inductive call :=
  | ModelFn (actions : obj)
  | Compile (m : model) (optimizer : Adam) (loss : string)
      (metrics : list string)
  | Fit (m : model) (x y : obj) (batch_size epochs verbose : Z)
      (validation_data : obj * obj) (callbacks : list ModelCheckpoint)
  | FitGenerator (m : model) (generator validation_data : obj)
      (use_multiprocessing : bool) (epochs verbose workers : Z)
      (callbacks : list ModelCheckpoint)
  | LoadWeights (m : model) (path : string)
  | Evaluate (m : model) (x y : obj) (batch_size : Z).

(** What a call returns. *)
Inductive answer :=
  | ANone
  | AModel (m : model)
  | ALossAcc (loss acc : scalar).

Inductive print_arg :=
  | PStr (s : string)
  | PScalar (x : scalar).

Inductive event :=
  | NewGraph (g : nat)
  | NewSession (s g : nat)
  | EnterSession (s : nat)
  | SetSession (s : nat)
  | Called (c : call) (r : result answer)
  | Printed (args : list print_arg)
  | ExitSession (s : nat)
  | CloseSession (s : nat).

(** The framework: how each call changes its state and what it
    returns or raises. [model_fn] is the function given to
    [get_rewards]. *)
Record framework := {
  world : Type;
  model_fn : obj -> world -> world * result model;
  compile : model -> Adam -> string -> list string ->
            world -> world * result unit;
  fit : model -> obj -> obj -> Z -> Z -> Z -> obj * obj ->
        list ModelCheckpoint -> world -> world * result unit;
  fit_generator : model -> obj -> obj -> bool -> Z -> Z -> Z ->
        list ModelCheckpoint -> world -> world * result unit;
  load_weights : model -> string -> world -> world * result unit;
  evaluate : model -> obj -> obj -> Z ->
             world -> world * result (scalar * scalar)
}.

Context (fw : framework).

Record state := {
  fw_state : world fw;
  next_id : nat;
  open_sessions : gset nat;
  backend_session : option nat;
  trace : list event
}.

(** Computations that change the state and return or raise. *)
Definition M (A : Type) : Type := state -> state * result A.

#[local] Instance M_ret : MRet M := λ A a st, (st, Ok a).
#[local] Instance M_bind : MBind M := λ A B f m st,
  match m st with
  | (st', Ok a) => f a st'
  | (st', Raise e) => (st', Raise e)
  end.

Definition log (ev : event) (st : state) : state :=
  {| fw_state := fw_state st; next_id := next_id st;
     open_sessions := open_sessions st;
     backend_session := backend_session st;
     trace := trace st ++ [ev] |}.

Definition lift {A : Type} (r : result A) : M A := λ st, (st, r).

(** A call into the framework, written to the trace with its answer. *)
Definition invoke {A : Type} (c : call) (ans : A -> answer)
    (f : world fw -> world fw * result A) : M A := λ st,
  let '(w, r) := f (fw_state st) in
  let logged := match r with Ok a => Ok (ans a) | Raise e => Raise e end in
  ({| fw_state := w; next_id := next_id st;
      open_sessions := open_sessions st;
      backend_session := backend_session st;
      trace := trace st ++ [Called c logged] |}, r).

(** [tf.Graph()] *)
Definition tf_Graph : M nat := λ st,
  let g := next_id st in
  ({| fw_state := fw_state st; next_id := S g;
      open_sessions := open_sessions st;
      backend_session := backend_session st;
      trace := trace st ++ [NewGraph g] |}, Ok g).

(** [tf.Session(graph=g)] *)
Definition tf_Session (g : nat) : M nat := λ st,
  let s := next_id st in
  ({| fw_state := fw_state st; next_id := S s;
      open_sessions := {[s]} ∪ open_sessions st;
      backend_session := backend_session st;
      trace := trace st ++ [NewSession s g] |}, Ok s).

(** Closing a session, as [close()] and [__exit__] do. *)
Definition release (ev : event) (s : nat) (st : state) : state :=
  {| fw_state := fw_state st; next_id := next_id st;
     open_sessions := open_sessions st ∖ {[s]};
     backend_session := backend_session st;
     trace := trace st ++ [ev] |}.

Definition session_close (s : nat) : M unit := λ st,
  (release (CloseSession s) s st, Ok tt).

(** [with sess: body]. The session's [__exit__] closes it and lets an
    exception of the body through. *)
Definition with_session {A : Type} (s : nat) (body : M A) : M A := λ st,
  let '(st', r) := body (log (EnterSession s) st) in
  (release (ExitSession s) s st', r).

(** [K.set_session(s)] *)
Definition K_set_session (s : nat) : M unit := λ st,
  ({| fw_state := fw_state st; next_id := next_id st;
      open_sessions := open_sessions st;
      backend_session := Some s;
      trace := trace st ++ [SetSession s] |}, Ok tt).

Definition print (args : list print_arg) : M unit := λ st,
  (log (Printed args) st, Ok tt).

(** Reading a local variable that may not have been bound. *)
Definition local {A : Type} (name : string) (v : option A) : M A :=
  match v with
  | Some a => mret a
  | None => lift (Raise (UnboundLocalError name))
  end.

(** Unpacking a tuple into four or into two names. *)
Definition unpack4 (t : list obj) : M (obj * obj * obj * obj) :=
  match t with
  | [a; b; c; d] => mret (a, b, c, d)
  | _ => lift (Raise ValueError)
  end.

Definition unpack2 (t : list obj) : M (obj * obj) :=
  match t with
  | [a; b] => mret (a, b)
  | _ => lift (Raise ValueError)
  end.

Record NetworkManager := {
  dataset : list obj;
  epochs : Z;
  batchsize : Z;
  use_generator : bool;
  monitor : string
}.

(** [NetworkManager(dataset)], with the defaults of [__init__]. *)
Definition new_manager (dataset : list obj) : NetworkManager :=
  {| dataset := dataset; epochs := 5; batchsize := 128;
     use_generator := false; monitor := "val_acc" |}.

Definition weights_file : string := "weights/temp_network.h5".

Definition checkpoint (monitor : string) : ModelCheckpoint :=
  {| filepath := weights_file; monitor_ := monitor; verbose_ := 1;
     save_best_only := true; save_weights_only := true |}.

(** [Adam(lr=1e-3, amsgrad=True)] *)
Definition adam : Adam :=
  {| lr := Float.of_decimal false 1 (-3); amsgrad := true |}.

Definition get_rewards (self : NetworkManager) (actions : obj) : M scalar :=
  graph ← tf_Graph;
  network_sess ← tf_Session graph;
  reward ← with_session network_sess (
    K_set_session network_sess;;
    model ← invoke (ModelFn actions) AModel (model_fn fw actions);
    let optimizer := adam in
    invoke (Compile model optimizer "categorical_crossentropy" ["accuracy"])
      (λ _, ANone)
      (compile fw model optimizer "categorical_crossentropy" ["accuracy"]);;
    '(X_val, y_val) ←
      (if negb (use_generator self) then
         '(X_train, y_train, X_val, y_val) ← unpack4 (dataset self);
         let callbacks := [checkpoint (monitor self)] in
         invoke (Fit model X_train y_train (batchsize self) (epochs self) 1
                   (X_val, y_val) callbacks)
           (λ _, ANone)
           (fit fw model X_train y_train (batchsize self) (epochs self) 1
              (X_val, y_val) callbacks);;
         mret (Some X_val, Some y_val)
       else
         '(training_generator, validation_generator) ←
           unpack2 (dataset self);
         let callbacks := [checkpoint "val_acc"] in
         invoke (FitGenerator model training_generator validation_generator
                   true (epochs self) 1 6 callbacks)
           (λ _, ANone)
           (fit_generator fw model training_generator validation_generator
              true (epochs self) 1 6 callbacks);;
         mret (None, None));
    invoke (LoadWeights model weights_file) (λ _, ANone)
      (load_weights fw model weights_file);;
    X ← local "X_val" X_val;
    y ← local "y_val" y_val;
    '(loss, acc) ← invoke (Evaluate model X y (batchsize self))
                     (λ p, ALossAcc p.1 p.2)
                     (evaluate fw model X y (batchsize self));
    let reward := acc in
    print [];;
    print [PStr "Manager: Accuracy = "; PScalar reward];;
    mret reward);
  session_close network_sess;;
  mret reward.

(** The steps of the training loop, and the step that a call into the
    framework makes. *)
Inductive step :=
  | BuildModel
  | CompileModel
  | FitModel
  | ReloadBest
  | EvaluateModel.

Definition step_of (c : call) : step :=
  match c with
  | ModelFn _ => BuildModel
  | Compile _ _ _ _ => CompileModel
  | Fit _ _ _ _ _ _ _ _ => FitModel
  | FitGenerator _ _ _ _ _ _ _ _ => FitModel
  | LoadWeights _ _ => ReloadBest
  | Evaluate _ _ _ _ => EvaluateModel
  end.

(** The steps made, in the order of the trace. *)
Definition steps_made (evs : list event) : list step :=
  omap (fun ev => match ev with
                  | Called c _ => Some (step_of c)
                  | _ => None
                  end) evs.

(** The events that a computation adds to the trace. *)
Definition new_events {A : Type} (m : M A) (st : state) : list event :=
  drop (length (trace st)) (trace (m st).1).

Definition initial (w : world fw) : state :=
  {| fw_state := w; next_id := 0; open_sessions := ∅;
     backend_session := None; trace := [] |}.
End Framework.

Arguments fw_state {obj model scalar fw} s.
Arguments next_id {obj model scalar fw} s.
Arguments open_sessions {obj model scalar fw} s.
Arguments backend_session {obj model scalar fw} s.
Arguments trace {obj model scalar fw} s.
Arguments new_events {obj model scalar fw A} m st.
Arguments step_of {obj model} c.
Arguments steps_made {obj model scalar} evs.
Arguments call : clear implicits.
Arguments answer : clear implicits.
Arguments event : clear implicits.
Arguments print_arg : clear implicits.
Arguments framework : clear implicits.
Arguments NetworkManager : clear implicits.

(** *** Sample frameworks

    Objects, models and scalars are numbers; the framework has no state.
    The model built from [actions] is [actions]; [evaluate] returns its
    two data arguments as loss and accuracy. *)

Definition steady : framework nat nat nat :=
  {| world := unit;
     model_fn := λ actions w, (w, Ok actions);
     compile := λ _ _ _ _ w, (w, Ok tt);
     fit := λ _ _ _ _ _ _ _ _ w, (w, Ok tt);
     fit_generator := λ _ _ _ _ _ _ _ _ w, (w, Ok tt);
     load_weights := λ _ _ w, (w, Ok tt);
     evaluate := λ _ x y _ w, (w, Ok (x, y)) |}.

(** The same, but training fails. *)
Definition failing_fit : framework nat nat nat :=
  {| world := unit;
     model_fn := λ actions w, (w, Ok actions);
     compile := λ _ _ _ _ w, (w, Ok tt);
     fit := λ _ _ _ _ _ _ _ _ w, (w, Raise (OtherError 1));
     fit_generator := λ _ _ _ _ _ _ _ _ w, (w, Raise (OtherError 1));
     load_weights := λ _ _ w, (w, Ok tt);
     evaluate := λ _ x y _ w, (w, Ok (x, y)) |}.

(** A manager that trains from generators. *)
Definition generator_manager (dataset : list nat) : NetworkManager nat :=
  {| dataset := dataset; epochs := 5; batchsize := 128;
     use_generator := true; monitor := "val_acc" |}.

End Manager.

(** * Properties *)

(** ** The order of floats *)

Section FloatOrder.
Implicit Types x y z : spec_float.

Lemma compare_rank x y :
  Float.is_nan x = false -> Float.is_nan y = false ->
  SFcompare x y = Some (Float.lex_compare (Float.rank x) (Float.rank y)).
Proof.
  unfold Float.lex_compare.
  destruct x as [[]|[]| |[] mx ex], y as [[]|[]| |[] my ey];
    simpl; try discriminate; intros _ _; try reflexivity.
  rewrite Z.compare_opp.
  rewrite (Z.compare_antisym ex ey).
  destruct (ex ?= ey)%Z; reflexivity.
Qed.

Lemma lex_compare_Lt a b :
  Float.lex_compare a b = Lt <->
  (a.1.1 < b.1.1 \/ a.1.1 = b.1.1 /\
     (a.1.2 < b.1.2 \/ a.1.2 = b.1.2 /\ a.2 < b.2))%Z.
Proof.
  unfold Float.lex_compare.
  destruct (Z.compare_spec a.1.1 b.1.1), (Z.compare_spec a.1.2 b.1.2),
    (Z.compare_spec a.2 b.2); split; (discriminate || reflexivity || lia).
Qed.

Lemma lt_rank x y :
  Float.is_nan x = false -> Float.is_nan y = false ->
  Float.lt x y = true <->
  Float.lex_compare (Float.rank x) (Float.rank y) = Lt.
Proof.
  intros Hx Hy. unfold Float.lt, SFltb. rewrite (compare_rank x y Hx Hy).
  destruct (Float.lex_compare _ _); split; (discriminate || reflexivity).
Qed.

Lemma lt_not_nan x y :
  Float.lt x y = true -> Float.is_nan x = false /\ Float.is_nan y = false.
Proof. destruct x, y; simpl; (discriminate || auto). Qed.

Lemma lt_irrefl x : Float.lt x x = false.
Proof.
  destruct (Float.is_nan x) eqn:Hx.
  - destruct x; (discriminate || reflexivity).
  - apply not_true_is_false. rewrite (lt_rank x x Hx Hx), lex_compare_Lt. lia.
Qed.

Lemma lt_trans x y z :
  Float.lt x y = true -> Float.lt y z = true -> Float.lt x z = true.
Proof.
  intros Hxy Hyz.
  destruct (lt_not_nan _ _ Hxy) as [Hx Hy], (lt_not_nan _ _ Hyz) as [_ Hz].
  rewrite lt_rank, lex_compare_Lt in * by assumption. lia.
Qed.

(** Without a NaN in the middle, "not less than" is transitive. *)
Lemma lt_negtrans x y z :
  Float.is_nan y = false ->
  Float.lt x y = false -> Float.lt y z = false -> Float.lt x z = false.
Proof.
  intros Hy Hxy Hyz. apply not_true_is_false. intros Hxz.
  destruct (lt_not_nan _ _ Hxz) as [Hx Hz].
  apply not_true_iff_false in Hxy, Hyz.
  rewrite lt_rank, lex_compare_Lt in * by assumption. lia.
Qed.

(** Of two floats that are not NaN, the one that is not less is
    greater or equal. *)
Lemma not_lt_ge x y :
  Float.is_nan x = false -> Float.is_nan y = false ->
  Float.lt x y = false -> Float.ge x y = true.
Proof.
  intros Hx Hy H. apply not_true_iff_false in H.
  rewrite (lt_rank x y Hx Hy) in H.
  unfold Float.ge, SFleb. rewrite (compare_rank y x Hy Hx).
  destruct (Float.lex_compare (Float.rank y) (Float.rank x)) eqn:E;
    try reflexivity.
  exfalso. apply H. apply lex_compare_Lt. unfold Float.lex_compare in E.
  destruct (Z.compare_spec (Float.rank y).1.1 (Float.rank x).1.1),
    (Z.compare_spec (Float.rank y).1.2 (Float.rank x).1.2),
    (Z.compare_spec (Float.rank y).2 (Float.rank x).2);
    (discriminate || lia).
Qed.

(** Two floats equal to a third are not less than one another. *)
Lemma eq_eq_not_lt x y s :
  Float.eq x s = true -> Float.eq y s = true -> Float.lt x y = false.
Proof.
  unfold Float.eq, SFeqb. intros Hx Hy.
  assert (Float.is_nan x = false /\ Float.is_nan y = false /\ Float.is_nan s = false)
    as (Nx & Ny & Ns) by (destruct x, y, s; simpl in *; (discriminate || auto)).
  rewrite (compare_rank _ _ Nx Ns) in Hx. rewrite (compare_rank _ _ Ny Ns) in Hy.
  apply not_true_is_false. rewrite (lt_rank x y Nx Ny), lex_compare_Lt.
  unfold Float.lex_compare in Hx, Hy.
  destruct (Z.compare_spec (Float.rank x).1.1 (Float.rank s).1.1),
    (Z.compare_spec (Float.rank x).1.2 (Float.rank s).1.2),
    (Z.compare_spec (Float.rank x).2 (Float.rank s).2); try discriminate.
  destruct (Z.compare_spec (Float.rank y).1.1 (Float.rank s).1.1),
    (Z.compare_spec (Float.rank y).1.2 (Float.rank s).1.2),
    (Z.compare_spec (Float.rank y).2 (Float.rank s).2); try discriminate.
  lia.
Qed.
End FloatOrder.

(** ** [list.sort] *)

Section SortFacts.
Context {A : Type} (ltb : A -> A -> bool).

#[local] Abbreviation ins := (fun acc x => PyList.insert_right ltb x acc).

(** *** The result is a permutation, whatever the comparison does *)

Lemma insert_right_perm x l : PyList.insert_right ltb x l ≡ₚ x :: l.
Proof.
  induction l as [|y t IH]; simpl; [reflexivity|].
  destruct (ltb x y); [reflexivity|].
  rewrite IH. apply perm_swap.
Qed.

Lemma fold_insert_perm l acc : fold_left ins l acc ≡ₚ acc ++ l.
Proof.
  revert acc. induction l as [|x t IH]; intros acc; simpl.
  - rewrite app_nil_r. reflexivity.
  - rewrite IH, insert_right_perm. apply Permutation_middle.
Qed.

Lemma insertion_sort_perm l : PyList.insertion_sort ltb l ≡ₚ l.
Proof. apply (fold_insert_perm l []). Qed.

Lemma binary_insert_perm a x : PyList.binary_insert ltb a x ≡ₚ x :: a.
Proof.
  unfold PyList.binary_insert.
  rewrite <- Permutation_middle, take_drop. reflexivity.
Qed.

Lemma binarysort_perm rest a : PyList.binarysort ltb a rest ≡ₚ a ++ rest.
Proof.
  unfold PyList.binarysort. revert a.
  induction rest as [|x t IH]; intros a; simpl.
  - rewrite app_nil_r. reflexivity.
  - rewrite IH, binary_insert_perm. apply Permutation_middle.
Qed.

Lemma small_sort_perm l : PyList.small_sort ltb l ≡ₚ l.
Proof.
  unfold PyList.small_sort. destruct (PyList.count_run ltb l) as [n d].
  rewrite binarysort_perm.
  transitivity (take n l ++ drop n l); [|rewrite take_drop; reflexivity].
  destruct d; [rewrite <- Permutation_rev|]; reflexivity.
Qed.

Lemma list_sort_perm l : PyList.list_sort ltb l ≡ₚ l.
Proof.
  unfold PyList.list_sort.
  destruct (_ <? _)%nat; [apply small_sort_perm|apply insertion_sort_perm].
Qed.

Lemma list_sort_reverse_perm l : PyList.list_sort_reverse ltb l ≡ₚ l.
Proof.
  unfold PyList.list_sort_reverse.
  rewrite <- Permutation_rev, list_sort_perm, <- Permutation_rev. reflexivity.
Qed.

(** *** Where the comparison is consistent

    [ok] marks the elements on which [ltb] behaves as a strict weak
    order: for floats, those that are not NaN. *)

Context (ok : A -> Prop).
Hypothesis ltb_irrefl : forall x, ltb x x = false.
Hypothesis ltb_trans :
  forall x y z, ltb x y = true -> ltb y z = true -> ltb x z = true.
Hypothesis ltb_negtrans :
  forall x y z, ok y ->
    ltb x y = false -> ltb y z = false -> ltb x z = false.

(** [x] is not after [y] in ascending order. *)
#[local] Abbreviation le := (fun x y => ltb y x = false).
#[local] Abbreviation ascending := (StronglySorted le).

Lemma ltb_asym x y : ltb x y = true -> ltb y x = false.
Proof.
  intros H. destruct (ltb y x) eqn:E; [|reflexivity].
  rewrite <- (ltb_irrefl x). symmetry. eapply ltb_trans; eassumption.
Qed.

Lemma insert_right_at x l1 l2 :
  Forall (fun y => ltb x y = false) l1 ->
  (forall y, head l2 = Some y -> ltb x y = true) ->
  PyList.insert_right ltb x (l1 ++ l2) = l1 ++ x :: l2.
Proof.
  intros H1 H2. induction H1 as [|y t Hy _ IH]; simpl.
  - destruct l2 as [|y t]; [reflexivity|]. simpl.
    rewrite (H2 y eq_refl). reflexivity.
  - rewrite Hy, IH. reflexivity.
Qed.

Lemma insert_right_ascending x l :
  Forall ok l -> ascending l -> ascending (PyList.insert_right ltb x l).
Proof.
  intros Hok Hs. induction Hs as [|y t Hs IH Hy]; simpl.
  - repeat constructor.
  - apply Forall_cons in Hok as [Hoky Hokt].
    destruct (ltb x y) eqn:E.
    + constructor; [constructor; assumption|].
      constructor; [apply ltb_asym, E|].
      rewrite Forall_forall in Hy |- *. intros z Hz.
      apply (ltb_negtrans z y x Hoky); [apply Hy, Hz|apply ltb_asym, E].
    + constructor; [apply IH, Hokt|].
      rewrite insert_right_perm. constructor; assumption.
Qed.

Lemma fold_insert_ascending l acc :
  Forall ok acc -> Forall ok l -> ascending acc ->
  ascending (fold_left ins l acc).
Proof.
  revert acc. induction l as [|x t IH]; intros acc Hacc Hl Hs; simpl.
  - assumption.
  - apply Forall_cons in Hl as [Hx Ht].
    apply IH; [|assumption|apply insert_right_ascending; assumption].
    rewrite insert_right_perm. constructor; assumption.
Qed.

Lemma insertion_sort_ascending l :
  Forall ok l -> ascending (PyList.insertion_sort ltb l).
Proof.
  intros Hl. apply fold_insert_ascending; [constructor|assumption|constructor].
Qed.

(** Stability: the elements that [sel] picks, all equal to one another,
    keep their order. *)
Section Stable.
Context (sel : A -> bool).
Hypothesis sel_class :
  forall x y, sel x = true -> sel y = true -> ltb x y = false.

Lemma filter_greater x l :
  sel x = true -> Forall (fun z => ltb x z = true) l ->
  List.filter sel l = [].
Proof.
  intros Sx Hgt. induction Hgt as [|z r Hz _ IH]; [reflexivity|].
  simpl. destruct (sel z) eqn:Sz; [|assumption].
  rewrite (sel_class x z Sx Sz) in Hz. discriminate.
Qed.

Lemma filter_insert_right x l :
  Forall ok l -> ascending l ->
  List.filter sel (PyList.insert_right ltb x l) = List.filter sel (l ++ [x]).
Proof.
  intros Hok Hs. induction Hs as [|y t Hs IH Hy]; [reflexivity|].
  apply Forall_cons in Hok as [Hoky Hokt].
  cbn [PyList.insert_right]. destruct (ltb x y) eqn:E.
  - assert (Hgt : Forall (fun z => ltb x z = true) (y :: t)).
    { constructor; [assumption|].
      rewrite Forall_forall in Hy, Hokt |- *. intros z Hz.
      destruct (ltb x z) eqn:Ez; [reflexivity|].
      rewrite <- E. symmetry.
      apply (ltb_negtrans x z y (Hokt z Hz) Ez (Hy z Hz)). }
    rewrite List.filter_app.
    change (x :: y :: t) with ([x] ++ (y :: t)).
    rewrite List.filter_app.
    destruct (sel x) eqn:Sx.
    + rewrite (filter_greater x (y :: t) Sx Hgt), app_nil_r. reflexivity.
    + cbn [List.filter]. rewrite Sx, app_nil_r. reflexivity.
  - cbn [List.filter app]. rewrite (IH Hokt). reflexivity.
Qed.

Lemma filter_fold_insert l acc :
  Forall ok acc -> Forall ok l -> ascending acc ->
  List.filter sel (fold_left ins l acc) = List.filter sel (acc ++ l).
Proof.
  revert acc. induction l as [|x t IH]; intros acc Hacc Hl Hs; simpl.
  - rewrite app_nil_r. reflexivity.
  - apply Forall_cons in Hl as [Hx Ht].
    rewrite IH; [| |assumption|apply insert_right_ascending; assumption].
    + rewrite List.filter_app, filter_insert_right by assumption.
      change (x :: t) with ([x] ++ t).
      rewrite !List.filter_app, <- app_assoc. reflexivity.
    + rewrite insert_right_perm. constructor; assumption.
Qed.

Lemma insertion_sort_stable l :
  Forall ok l ->
  List.filter sel (PyList.insertion_sort ltb l) = List.filter sel l.
Proof.
  intros Hl. apply (filter_fold_insert l []); [constructor|assumption|constructor].
Qed.
End Stable.

(** *** CPython's algorithm computes the stable insertion sort *)

Lemma ascending_lookup l i j x y :
  ascending l -> (i < j)%nat ->
  l !! i = Some x -> l !! j = Some y -> ltb y x = false.
Proof.
  intros Hs. revert i j.
  induction Hs as [|z t Hs IH Hz]; intros i j Hij Hi Hj; [discriminate|].
  destruct j as [|j]; [lia|]. destruct i as [|i]; simpl in *.
  - injection Hi as ->. rewrite Forall_lookup in Hz. apply (Hz j y Hj).
  - apply (IH i j); [lia|assumption..].
Qed.

Lemma bisect_spec fuel a pivot : forall l r,
  Forall ok a -> ascending a ->
  (l <= r <= length a)%nat -> (r - l <= fuel)%nat ->
  (forall i y, (i < l)%nat -> a !! i = Some y -> ltb pivot y = false) ->
  (forall i y, (r <= i)%nat -> a !! i = Some y -> ltb pivot y = true) ->
  (forall i y, (i < PyList.bisect ltb fuel a pivot l r)%nat ->
               a !! i = Some y -> ltb pivot y = false) /\
  (forall i y, (PyList.bisect ltb fuel a pivot l r <= i)%nat ->
               a !! i = Some y -> ltb pivot y = true).
Proof.
  induction fuel as [|fuel IH]; intros l r Hok Hs Hlr Hfuel Hlo Hhi;
    cbn [PyList.bisect].
  - split; [assumption|]. intros i y Hi. apply Hhi. lia.
  - destruct (Nat.ltb_spec l r) as [Hlt|Hge];
      [|split; [assumption|intros i y Hi; apply Hhi; lia]].
    pose proof (Nat.div_mod_eq (r - l) 2) as Hdiv.
    pose proof (Nat.mod_upper_bound (r - l) 2 ltac:(lia)) as Hmod.
    set (p := (l + (r - l) / 2)%nat) in *.
    assert (l <= p < r)%nat as Hp by (subst p; lia).
    destruct (a !! p) as [x|] eqn:Hx;
      [|apply lookup_ge_None in Hx; lia].
    rewrite Forall_lookup in Hok.
    destruct (ltb pivot x) eqn:E.
    + apply IH; [rewrite Forall_lookup; assumption|assumption|lia|lia|assumption|].
      intros i y Hi Hy. destruct (decide (i = p)) as [->|Hne].
      * congruence.
      * destruct (ltb pivot y) eqn:Ey; [reflexivity|].
        rewrite <- E. symmetry.
        apply (ltb_negtrans pivot y x (Hok i y Hy) Ey).
        apply (ascending_lookup a p i x y Hs); [lia|assumption..].
    + apply IH; [rewrite Forall_lookup; assumption|assumption|lia|lia| |assumption].
      intros i y Hi Hy. destruct (decide (i = p)) as [->|Hne].
      * congruence.
      * apply (ltb_negtrans pivot x y (Hok p x Hx) E).
        apply (ascending_lookup a i p y x Hs); [lia|assumption..].
Qed.

Lemma binary_insert_eq a x :
  Forall ok a -> ascending a ->
  PyList.binary_insert ltb a x = PyList.insert_right ltb x a.
Proof.
  intros Hok Hs. unfold PyList.binary_insert.
  destruct (bisect_spec (length a) a x 0 (length a) Hok Hs) as [Hlo Hhi];
    [lia|lia|intros; lia|
     intros i y Hi Hy; apply lookup_lt_Some in Hy; lia|].
  set (k := PyList.bisect ltb (length a) a x 0 (length a)) in *.
  symmetry. transitivity (PyList.insert_right ltb x (take k a ++ drop k a));
    [rewrite take_drop; reflexivity|].
  apply insert_right_at.
  - rewrite Forall_lookup. intros i y Hy.
    apply lookup_take_Some in Hy as [Hy Hi]. apply (Hlo i y Hi Hy).
  - intros y Hy. rewrite head_lookup, lookup_drop in Hy.
    apply (Hhi (k + 0)%nat y); [lia|assumption].
Qed.

Lemma binarysort_eq rest : forall a,
  Forall ok a -> Forall ok rest -> ascending a ->
  PyList.binarysort ltb a rest = fold_left ins rest a.
Proof.
  unfold PyList.binarysort.
  induction rest as [|x t IH]; intros a Ha Hr Hs; simpl; [reflexivity|].
  apply Forall_cons in Hr as [Hx Ht].
  rewrite (binary_insert_eq a x Ha Hs). apply IH; [|assumption|].
  - rewrite insert_right_perm. constructor; assumption.
  - apply insert_right_ascending; assumption.
Qed.

Lemma run_ascending_chain l : forall prev,
  Sorted le (prev :: take (PyList.run_ascending ltb prev l) l).
Proof.
  induction l as [|x t IH]; intros prev; simpl.
  - repeat constructor.
  - destruct (ltb x prev) eqn:E; simpl.
    + repeat constructor.
    + constructor; [apply IH|constructor; assumption].
Qed.

Lemma run_descending_chain l : forall prev,
  Sorted (fun x y => ltb y x = true)
         (prev :: take (PyList.run_descending ltb prev l) l).
Proof.
  induction l as [|x t IH]; intros prev; simpl.
  - repeat constructor.
  - destruct (ltb x prev) eqn:E; simpl.
    + constructor; [apply IH|constructor; assumption].
    + repeat constructor.
Qed.

Lemma chain_ascending l : Forall ok l -> Sorted le l -> ascending l.
Proof.
  intros Hok Hs. induction Hs as [|x t Hs IH Hd]; [constructor|].
  apply Forall_cons in Hok as [Hx Ht]. specialize (IH Ht).
  constructor; [assumption|].
  destruct Hd as [|y r Hxy]; [constructor|].
  apply Forall_cons in Ht as [Hy _].
  apply StronglySorted_inv in IH as [_ Hr].
  constructor; [assumption|].
  rewrite Forall_forall in Hr |- *. intros z Hz.
  apply (ltb_negtrans z y x Hy (Hr z Hz) Hxy).
Qed.

Lemma ascending_before l1 x l2 :
  ascending (l1 ++ x :: l2) -> Forall (fun y => ltb x y = false) l1.
Proof.
  induction l1 as [|y t IH]; simpl; intros Hs; [constructor|].
  apply StronglySorted_inv in Hs as [Hs Hy].
  constructor; [|apply IH, Hs].
  apply Forall_app in Hy as [_ Hy]. apply Forall_cons in Hy as [Hy _].
  exact Hy.
Qed.

Lemma fold_insert_ascending_id l : forall acc,
  ascending (acc ++ l) -> fold_left ins l acc = acc ++ l.
Proof.
  induction l as [|x t IH]; intros acc Hs; simpl.
  - rewrite app_nil_r. reflexivity.
  - pose proof (insert_right_at x acc [] (ascending_before acc x t Hs)) as E.
    rewrite app_nil_r in E. rewrite E by discriminate.
    rewrite IH; rewrite <- app_assoc; [reflexivity|exact Hs].
Qed.

Lemma fold_insert_descending l : forall acc,
  StronglySorted (fun x y => ltb y x = true) l ->
  Forall (fun x => Forall (fun y => ltb x y = true) acc) l ->
  fold_left ins l acc = rev l ++ acc.
Proof.
  induction l as [|x t IH]; intros acc Hs Hacc; simpl; [reflexivity|].
  apply StronglySorted_inv in Hs as [Hs Hx].
  apply Forall_cons in Hacc as [Hxacc Hacc].
  assert (PyList.insert_right ltb x acc = x :: acc) as ->.
  { destruct Hxacc as [|y r Hy _]; simpl; [reflexivity|].
    rewrite Hy. reflexivity. }
  rewrite IH, <- app_assoc; [reflexivity|assumption|].
  rewrite Forall_forall in Hx, Hacc |- *. intros z Hz.
  constructor; [apply Hx, Hz|apply Hacc, Hz].
Qed.

Lemma descending_chain_strong l :
  Sorted (fun x y => ltb y x = true) l ->
  StronglySorted (fun x y => ltb y x = true) l.
Proof.
  apply Sorted_StronglySorted. intros x y z Hxy Hyz.
  apply (ltb_trans z y x Hyz Hxy).
Qed.

Lemma binarysort_run run rest prefix :
  prefix = PyList.insertion_sort ltb run -> Forall ok (run ++ rest) ->
  PyList.binarysort ltb prefix rest = PyList.insertion_sort ltb (run ++ rest).
Proof.
  intros -> Hok. apply Forall_app in Hok as [Hrun Hrest].
  unfold PyList.insertion_sort at 2. rewrite fold_left_app.
  apply binarysort_eq; [|assumption|apply insertion_sort_ascending, Hrun].
  eapply Permutation_Forall; [symmetry; apply insertion_sort_perm|assumption].
Qed.

Lemma small_sort_eq l :
  Forall ok l -> PyList.small_sort ltb l = PyList.insertion_sort ltb l.
Proof.
  intros Hok. unfold PyList.small_sort.
  destruct (PyList.count_run ltb l) as [n d] eqn:Hrun.
  rewrite <- (take_drop n l) in Hok.
  transitivity (PyList.insertion_sort ltb (take n l ++ drop n l));
    [|rewrite take_drop; reflexivity].
  apply binarysort_run; [|assumption].
  apply Forall_app in Hok as [Hok _].
  destruct l as [|x [|y t]]; simpl in Hrun.
  - injection Hrun as <- <-. reflexivity.
  - injection Hrun as <- <-. reflexivity.
  - destruct (ltb y x) eqn:E; injection Hrun as <- <-; simpl take in *.
    + unfold PyList.insertion_sort. rewrite fold_insert_descending.
      * rewrite app_nil_r. reflexivity.
      * apply descending_chain_strong.
        constructor; [apply run_descending_chain|constructor; assumption].
      * apply Forall_forall. intros; constructor.
    + unfold PyList.insertion_sort. rewrite fold_insert_ascending_id; [reflexivity|].
      apply chain_ascending; [assumption|].
      constructor; [apply run_ascending_chain|constructor; assumption].
Qed.

Lemma list_sort_eq l :
  Forall ok l -> PyList.list_sort ltb l = PyList.insertion_sort ltb l.
Proof.
  intros Hok. unfold PyList.list_sort.
  destruct (_ <? _)%nat; [apply small_sort_eq, Hok|reflexivity].
Qed.

(** *** [list.sort(reverse=True)] on consistent keys *)

Lemma ascending_rev l :
  ascending l -> StronglySorted (fun x y => ltb x y = false) (rev l).
Proof.
  intros Hs. induction Hs as [|x t Hs IH Hx]; simpl; [constructor|].
  apply StronglySorted_app_2; [|assumption|repeat constructor].
  intros y z Hy Hz. apply list_elem_of_In, in_rev, list_elem_of_In in Hy.
  apply list_elem_of_singleton in Hz as ->.
  rewrite Forall_forall in Hx. apply Hx, Hy.
Qed.

Lemma list_sort_reverse_descending l :
  Forall ok l ->
  StronglySorted (fun x y => ltb x y = false) (PyList.list_sort_reverse ltb l).
Proof.
  intros Hok. unfold PyList.list_sort_reverse.
  assert (Forall ok (rev l)) as Hrev
    by (rewrite <- Permutation_rev; assumption).
  rewrite (list_sort_eq _ Hrev).
  apply ascending_rev, insertion_sort_ascending, Hrev.
Qed.

Lemma list_sort_reverse_stable (sel : A -> bool) l :
  (forall x y, sel x = true -> sel y = true -> ltb x y = false) ->
  Forall ok l ->
  List.filter sel (PyList.list_sort_reverse ltb l) = List.filter sel l.
Proof.
  intros Hsel Hok. unfold PyList.list_sort_reverse.
  assert (Forall ok (rev l)) as Hrev
    by (rewrite <- Permutation_rev; assumption).
  rewrite (list_sort_eq _ Hrev), List.filter_rev.
  rewrite (insertion_sort_stable sel Hsel (rev l) Hrev).
  rewrite List.filter_rev, rev_involutive. reflexivity.
Qed.
End SortFacts.

(** ** [rank_architectures.py] *)

Section Ranking.
Import RankArchitectures.

Lemma StronglySorted_lookup {A} (R : A -> A -> Prop) l (i j : nat) x y :
  StronglySorted R l -> (i < j)%nat ->
  l !! i = Some x -> l !! j = Some y -> R x y.
Proof.
  intros Hs. revert i j.
  induction Hs as [|z t Hs IH Hz]; intros i j Hij Hi Hj; [discriminate|].
  destruct j as [|j]; [lia|]. destruct i as [|i]; simpl in *.
  - injection Hi as ->. rewrite Forall_lookup in Hz. apply (Hz j y Hj).
  - apply (IH i j); [lia|assumption..].
Qed.

Lemma mapM_Ok {A B} (f : A -> result B) l l' :
  mapM f l = Ok l' <-> Forall2 (fun a b => f a = Ok b) l l'.
Proof.
  revert l'. induction l as [|a l IH]; intros l'; simpl.
  - split; [intros [= <-]; constructor|intros H; inversion H; reflexivity].
  - split.
    + unfold mbind, result_bind at 1. destruct (f a) as [b|] eqn:E; [|discriminate].
      unfold mbind, result_bind at 1. destruct (mapM f l) as [k|]; [|discriminate].
      intros [= <-]. constructor; [assumption|apply IH; reflexivity].
    + intros H. inversion H as [|? b ? k Hb Hk]; subst.
      rewrite Hb. apply IH in Hk. simpl. rewrite Hk. reflexivity.
Qed.

Lemma range_from_ge fuel : forall start stop step,
  (0 <= step)%Z ->
  Forall (fun i => (start <= i)%Z) (PyList.range_from fuel start stop step).
Proof.
  induction fuel as [|k IH]; intros start stop step Hstep; simpl;
    [constructor|].
  destruct (start <? stop)%Z; constructor; [lia|].
  eapply Forall_impl; [apply (IH _ _ _ Hstep)|]. simpl. intros; lia.
Qed.

Lemma for_each_invariant {S I} (P : S -> Prop) (Q : I -> Prop)
    (body : S -> I -> result S) :
  (forall s i s', P s -> Q i -> body s i = Ok s' -> P s') ->
  forall items s s',
    Forall Q items -> P s -> PyList.for_each body s items = Ok s' -> P s'.
Proof.
  intros Hbody items. induction items as [|i rest IH]; intros s s' HQ HP; simpl.
  - intros [= <-]. assumption.
  - apply Forall_cons in HQ as [Hi Hrest].
    destruct (body s i) as [s1|] eqn:E; [|discriminate].
    apply IH; [assumption|]. apply (Hbody s i s1 HP Hi E).
Qed.

Lemma setitem_keeps_first (x : value) t (i : Z) v temp :
  (1 <= i)%Z -> PyList.setitem (x :: t) i v = Ok temp ->
  exists t', temp = x :: t'.
Proof.
  intros Hi. unfold PyList.setitem, PyList.index.
  destruct (i <? 0)%Z eqn:E; [lia|].
  destruct (_ && _); [|discriminate]. intros [= <-].
  destruct (Z.to_nat i) as [|k] eqn:Ek; [lia|]. simpl. eauto.
Qed.

Lemma convert_ids_keeps_first x t temp :
  convert_ids (x :: t) = Ok temp -> exists t', temp = x :: t'.
Proof.
  unfold convert_ids.
  apply (for_each_invariant (fun temp => exists t', temp = x :: t')
           (fun i => (1 <= i)%Z)); [| |eauto].
  - intros s i s' [t' ->] Hi. unfold mbind, result_bind.
    destruct (PyList.getitem _ _); [|discriminate].
    destruct (py_int _); [|discriminate].
    apply setitem_keeps_first, Hi.
  - apply range_from_ge. lia.
Qed.

(** Field 0 of a parsed line is a float. *)
Lemma parse_line_score line temp :
  parse_line line = Ok temp -> exists f, score temp = Some f.
Proof.
  unfold parse_line, mbind, result_bind.
  destruct (PyList.getitem _ (-1)); [|discriminate].
  destruct (slice_drop_last _); [|discriminate].
  destruct (PyList.setitem _ (-1) _) as [temp1|]; [|discriminate].
  destruct (PyList.getitem temp1 0) as [first|] eqn:E0; [|discriminate].
  destruct (py_float first) as [sc|] eqn:Ef; [|discriminate].
  assert (exists f, sc = VFloat f) as [f ->].
  { destruct first; simpl in Ef; unfold mbind, result_bind in Ef;
      [destruct (Str.to_float _)|destruct (Float.of_int _)|];
      inversion Ef; eauto. }
  destruct temp1 as [|y t]; [discriminate|]. simpl.
  intros H. apply convert_ids_keeps_first in H as [t' ->]. simpl. eauto.
Qed.

Lemma read_lines_scores text lines :
  read_lines text = Ok lines ->
  Forall (fun line => exists f, score line = Some f) lines.
Proof.
  unfold read_lines. intros H. apply mapM_Ok in H.
  induction H as [|l temp ls temps Hl _ IH]; constructor; [|assumption].
  apply (parse_line_score l temp Hl).
Qed.

Lemma refloat_scored line f : score line = Some f -> refloat line = Ok line.
Proof.
  destruct line as [|[] t]; try discriminate. intros _. reflexivity.
Qed.

Lemma sort_key_scored line f : score line = Some f -> sort_key line = Ok f.
Proof.
  destruct line as [|[] t]; try discriminate. intros [= ->]. reflexivity.
Qed.

Lemma print_lines_scored lines :
  Forall (fun line => exists f, score line = Some f) lines ->
  exists out, print_lines lines = (out, None) /\ Forall2 shows out lines.
Proof.
  intros H. induction H as [|line rest [f Hf] _ (out & E & IH)]; simpl.
  - exists []. split; [reflexivity|constructor].
  - destruct line as [|first t]; [discriminate|]. simpl. rewrite E.
    eexists. split; [reflexivity|]. constructor; [|assumption].
    exists first, t. rewrite drop_0. auto.
Qed.

Lemma shows_printed_line out lines :
  Forall2 shows out lines -> printed_line <$> out = lines.
Proof.
  intros H. induction H as [|p line ps ls (first & rest & -> & ->) _ IH];
    simpl; [reflexivity|]. f_equal. exact IH.
Qed.

Lemma scored_keys lines :
  Forall (fun line => exists f, score line = Some f) lines ->
  exists keys, Forall2 (fun line k => score line = Some k) lines keys.
Proof.
  intros H. induction H as [|line rest [f Hf] _ [keys IH]].
  - exists []. constructor.
  - exists (f :: keys). constructor; assumption.
Qed.

Lemma sorted_reverse_perm {A K} (ltb : K -> K -> bool) keys (l : list A) :
  length keys = length l -> PyList.sorted_reverse ltb keys l ≡ₚ l.
Proof.
  intros Hlen. unfold PyList.sorted_reverse.
  rewrite list_sort_reverse_perm. rewrite snd_zip by lia. reflexivity.
Qed.

(** The run of the script on a file that parses. *)
Lemma main_on_file f fs text lines :
  fs !! input_file f = Some (File text) ->
  read_lines text = Ok lines ->
  exists keys out,
    Forall2 (fun line k => score line = Some k) lines keys /\
    Forall2 shows out (PyList.sorted_reverse Float.lt keys lines) /\
    main f fs = {| stdout := out; opened := [input_file f];
                   outcome := Finished |}.
Proof.
  intros Hfs Hread. pose proof (read_lines_scores text lines Hread) as Hsc.
  destruct (scored_keys lines Hsc) as [keys Hkeys].
  assert (mapM refloat lines = Ok lines) as Hre.
  { apply mapM_Ok. clear -Hsc.
    induction Hsc as [|line rest [f Hf] _ IH]; constructor; [|assumption].
    apply (refloat_scored line f Hf). }
  assert (mapM sort_key lines = Ok keys) as Hk.
  { apply mapM_Ok. eapply Forall2_impl; [exact Hkeys|].
    intros line k. apply sort_key_scored. }
  assert (Forall (fun line => exists f, score line = Some f)
            (PyList.sorted_reverse Float.lt keys lines)) as Hsorted.
  { eapply Permutation_Forall; [|exact Hsc]. symmetry.
    apply sorted_reverse_perm. symmetry. apply (Forall2_length _ _ _ Hkeys). }
  destruct (print_lines_scored _ Hsorted) as (out & Hout & Hshows).
  exists keys, out. split; [assumption|]. split; [assumption|].
  unfold main. rewrite Hfs, Hread. simpl. rewrite Hre. simpl.
  unfold sort_lines. rewrite Hk. simpl. rewrite Hout. reflexivity.
Qed.

(** C8: on an input file that parses, the lines printed are the lines
    read, each exactly once: every call of [print] shows one line, as
    its score followed by the list of its other fields, and the lines
    shown are a permutation of the lines read. *)
Theorem printed_lines_are_lines_read f fs text lines :
  fs !! input_file f = Some (File text) ->
  read_lines text = Ok lines ->
  exists shown,
    Forall2 shows (stdout (main f fs)) shown /\ shown ≡ₚ lines.
Proof.
  intros Hfs Hread.
  destruct (main_on_file f fs text lines Hfs Hread)
    as (keys & out & Hkeys & Hshows & ->).
  exists (PyList.sorted_reverse Float.lt keys lines). split; [exact Hshows|].
  apply sorted_reverse_perm. symmetry. apply (Forall2_length _ _ _ Hkeys).
Qed.

(** *** The order of the lines printed *)

#[local] Abbreviation key_lt :=
  (fun p q : spec_float * list value => Float.lt (fst p) (fst q)).

Lemma keyed_lines lines keys :
  Forall2 (fun line k => score line = Some k) lines keys ->
  Forall (fun p => score p.2 = Some p.1) (zip keys lines).
Proof.
  intros H. induction H; simpl; constructor; assumption.
Qed.

Lemma keyed_not_nan lines keys :
  Forall2 (fun line k => score line = Some k) lines keys ->
  existsb nan_score lines = false ->
  Forall (fun p => Float.is_nan p.1 = false) (zip keys lines).
Proof.
  intros H. induction H as [|line k ls ks Hk _ IH]; simpl; [constructor|].
  intros E. apply orb_false_elim in E as [E1 E2].
  constructor; [|apply IH, E2].
  unfold nan_score in E1. rewrite Hk in E1. exact E1.
Qed.

Lemma filter_keyed s (pairs : list (spec_float * list value)) :
  Forall (fun p => score p.2 = Some p.1) pairs ->
  List.filter (score_is s) (snd <$> pairs) =
  snd <$> List.filter (fun p => Float.eq p.1 s) pairs.
Proof.
  intros H. induction H as [|p ps Hp _ IH]; [reflexivity|].
  cbn [fmap list_fmap List.filter]. unfold score_is at 1. rewrite Hp.
  destruct (Float.eq p.1 s); cbn [fmap list_fmap]; [f_equal|]; exact IH.
Qed.

(** C1, amended: on an input file that parses and in which no score is
    a NaN, the lines are printed in non-increasing order of the score:
    of any two printed lines, the one printed earlier has a score
    greater than or equal to that of the one printed later. *)
Theorem printed_scores_non_increasing f fs text lines :
  fs !! input_file f = Some (File text) ->
  read_lines text = Ok lines ->
  existsb nan_score lines = false ->
  non_increasing (printed_line <$> stdout (main f fs)).
Proof.
  intros Hfs Hread Hnan.
  destruct (main_on_file f fs text lines Hfs Hread)
    as (keys & out & Hkeys & Hshows & ->).
  simpl. rewrite (shows_printed_line _ _ Hshows).
  unfold PyList.sorted_reverse.
  set (pairs := PyList.list_sort_reverse key_lt (zip keys lines)).
  assert (Hperm : pairs ≡ₚ zip keys lines) by apply list_sort_reverse_perm.
  assert (Hinv : Forall (fun p => score p.2 = Some p.1) pairs)
    by (rewrite Hperm; apply keyed_lines, Hkeys).
  assert (Hok : Forall (fun p => Float.is_nan p.1 = false) pairs)
    by (rewrite Hperm; apply keyed_not_nan; assumption).
  assert (Hsorted : StronglySorted (fun p q => key_lt p q = false) pairs).
  { apply (list_sort_reverse_descending key_lt
             (fun p => Float.is_nan p.1 = false)).
    - intros p. apply lt_irrefl.
    - intros p q r. apply lt_trans.
    - intros p q r. apply lt_negtrans.
    - apply keyed_not_nan; assumption. }
  intros i j a b x y Hij Ha Hb Hx Hy.
  apply list_lookup_fmap_Some in Ha as (p & -> & Hp).
  apply list_lookup_fmap_Some in Hb as (q & -> & Hq).
  rewrite Forall_lookup in Hinv, Hok.
  rewrite (Hinv i p Hp) in Hx. rewrite (Hinv j q Hq) in Hy.
  injection Hx as <-. injection Hy as <-.
  apply not_lt_ge; [apply (Hok i p Hp)|apply (Hok j q Hq)|].
  apply (StronglySorted_lookup _ pairs i j p q Hsorted Hij Hp Hq).
Qed.

(** C9, amended: on an input file that parses and in which no score is
    a NaN, the sort is stable: lines with equal scores are printed in
    the order in which they are in the file. *)
Theorem equal_scores_keep_file_order f fs text lines :
  fs !! input_file f = Some (File text) ->
  read_lines text = Ok lines ->
  existsb nan_score lines = false ->
  same_order_of_equals lines (printed_line <$> stdout (main f fs)).
Proof.
  intros Hfs Hread Hnan s.
  destruct (main_on_file f fs text lines Hfs Hread)
    as (keys & out & Hkeys & Hshows & ->).
  simpl. rewrite (shows_printed_line _ _ Hshows).
  unfold PyList.sorted_reverse.
  assert (Hlen : length keys = length lines)
    by (symmetry; apply (Forall2_length _ _ _ Hkeys)).
  rewrite filter_keyed.
  - rewrite (list_sort_reverse_stable key_lt
               (fun p => Float.is_nan p.1 = false)).
    + rewrite <- filter_keyed by (apply keyed_lines, Hkeys).
      rewrite snd_zip by lia. reflexivity.
    + intros p. apply lt_irrefl.
    + intros p q r. apply lt_trans.
    + intros p q r. apply lt_negtrans.
    + intros p q Hp Hq. apply (eq_eq_not_lt _ _ s Hp Hq).
    + apply keyed_not_nan; assumption.
  - rewrite list_sort_reverse_perm. apply keyed_lines, Hkeys.
Qed.

(** C10: when the input file does not exist, the script prints the
    message, does not open the file, and exits with status 0. *)
Theorem missing_file_prints_message f fs :
  fs !! input_file f = None ->
  main f fs =
    {| stdout :=
         [[PValue (VStr "Please run `train.py` script to generate architectures first !")]];
       opened := [];
       outcome := Exited 0 |}.
Proof. intros H. unfold main. rewrite H. reflexivity. Qed.

(** *** The theorems at sample files, and the inputs on which the order
    fails *)

Lemma printed_lines_are_lines_read_witness :
  exists shown,
    Forall2 shows (stdout (main None (only history))) shown /\
    shown ≡ₚ [[VFloat (S754_finite false 4503599627370496 (-53));
               VInt 0; VStr "3x3 conv"];
              [VFloat (S754_finite false 6755399441055744 (-53));
               VInt 1; VStr "5x5 conv"];
              [VFloat (S754_finite false 4503599627370496 (-53));
               VInt 2; VStr "3x3 maxpool"]].
Proof.
  apply (printed_lines_are_lines_read None (only history) history);
    vm_compute; reflexivity.
Defined.

Lemma printed_scores_non_increasing_witness :
  non_increasing (printed_line <$> stdout (main None (only history))).
Proof.
  eapply (printed_scores_non_increasing None (only history) history);
    vm_compute; reflexivity.
Defined.

Lemma equal_scores_keep_file_order_witness :
  same_order_of_equals
    [[VFloat (S754_finite false 4503599627370496 (-53));
      VInt 0; VStr "3x3 conv"];
     [VFloat (S754_finite false 6755399441055744 (-53));
      VInt 1; VStr "5x5 conv"];
     [VFloat (S754_finite false 4503599627370496 (-53));
      VInt 2; VStr "3x3 maxpool"]]
    (printed_line <$> stdout (main None (only history))).
Proof.
  apply (equal_scores_keep_file_order None (only history) history);
    vm_compute; reflexivity.
Defined.

Lemma missing_file_prints_message_witness :
  main None ∅ =
    {| stdout :=
         [[PValue (VStr "Please run `train.py` script to generate architectures first !")]];
       opened := [];
       outcome := Exited 0 |}.
Proof. apply (missing_file_prints_message None ∅). reflexivity. Defined.

(** C1 as stated fails: with a NaN among the scores, the line of score
    0.5 is printed before the line of score 0.75. *)
Lemma nan_breaks_score_order :
  score <$> (printed_line <$> stdout (main None (only history_with_nan)))
    = [Some (S754_finite false 4503599627370496 (-53));
       Some S754_nan;
       Some (S754_finite false 6755399441055744 (-53))] /\
  ~ non_increasing
      (printed_line <$> stdout (main None (only history_with_nan))).
Proof.
  split; [vm_compute; reflexivity|]. intros H.
  specialize (H 0%nat 2%nat _ _ _ _ ltac:(lia) eq_refl eq_refl eq_refl eq_refl).
  vm_compute in H. discriminate.
Qed.

(** C9 as stated fails: with NaN among the scores, the two lines of
    score 1.0 are printed in the order opposite to that of the file. *)
Lemma nan_breaks_stability :
  exists lines,
    read_lines history_with_nan_and_ties = Ok lines /\
    List.filter (score_is (S754_finite false 4503599627370496 (-52))) lines
      = [[VFloat (S754_finite false 4503599627370496 (-52));
          VInt 0; VStr "b"];
         [VFloat (S754_finite false 4503599627370496 (-52));
          VInt 0; VStr "a"]] /\
    List.filter (score_is (S754_finite false 4503599627370496 (-52)))
      (printed_line <$> stdout (main None (only history_with_nan_and_ties)))
      = [[VFloat (S754_finite false 4503599627370496 (-52));
          VInt 0; VStr "a"];
         [VFloat (S754_finite false 4503599627370496 (-52));
          VInt 0; VStr "b"]] /\
    ~ same_order_of_equals lines
        (printed_line <$> stdout (main None (only history_with_nan_and_ties))).
Proof.
  eexists. split; [vm_compute; reflexivity|].
  split; [vm_compute; reflexivity|]. split; [vm_compute; reflexivity|].
  intros H. specialize (H (S754_finite false 4503599627370496 (-52))).
  vm_compute in H. discriminate.
Qed.
End Ranking.

(** ** [NetworkManager.get_rewards] *)

Section ManagerFacts.
Import Manager.
Context {obj model scalar : Type} (fw : framework obj model scalar).
#[local] Opaque adam.

(** Every path through [get_rewards], one goal per path: each call
    into the framework either returns or raises. *)
Ltac explore self actions st :=
  unfold new_events, get_rewards, with_session, tf_Graph, tf_Session,
    K_set_session, session_close, invoke, print, log, release, local,
    unpack4, unpack2, lift;
  unfold mbind, M_bind, mret, M_ret; cbn;
  destruct (model_fn fw actions (fw_state st)) as [? [?|?]]; cbn;
  [match goal with |- context [compile fw ?m ?o ?l ?ms ?w] =>
     destruct (compile fw m o l ms w) as [? [[]|?]] end; cbn;
   [destruct (use_generator self) eqn:?; cbn;
    [destruct (dataset self) as [|? [|? [|? ?]]] eqn:?; cbn;
     [| |match goal with
         | |- context [fit_generator fw ?m ?a ?b ?c ?d ?e ?f ?g ?w] =>
             destruct (fit_generator fw m a b c d e f g w) as [? [[]|?]]
         end; cbn;
         [match goal with |- context [load_weights fw ?m ?a ?w] =>
            destruct (load_weights fw m a w) as [? [[]|?]] end; cbn|] |]
    |destruct (dataset self) as [|? [|? [|? [|? [|? ?]]]]] eqn:?; cbn;
     [| | | |match goal with
             | |- context [fit fw ?m ?a ?b ?c ?d ?e ?f ?g ?w] =>
                 destruct (fit fw m a b c d e f g w) as [? [[]|?]]
             end; cbn;
         [match goal with |- context [load_weights fw ?m ?a ?w] =>
            destruct (load_weights fw m a w) as [? [[]|?]] end; cbn;
          [match goal with |- context [evaluate fw ?m ?a ?b ?c ?w] =>
             destruct (evaluate fw m a b c w) as [? [[? ?]|?]] end; cbn| ]
         |] |]]
   |]
  |];
  rewrite <- ?app_assoc, ?drop_app_length; cbn.

(** Membership in an explicit list of events: one case per element. *)
Ltac among H :=
  repeat (apply elem_of_cons in H as [H|H];
          [first [discriminate H|injection H; intros; subst|idtac]|]);
  try (apply elem_of_nil in H; destruct H).

(** C2: when [get_rewards] returns, the reward is the accuracy that
    [evaluate] returned for the validation data of the dataset, as it
    is. *)
Theorem reward_is_validation_accuracy self actions st r :
  (get_rewards fw self actions st).2 = Ok r ->
  exists m X_train y_train X_val y_val loss,
    dataset self = [X_train; y_train; X_val; y_val] /\
    Called (Evaluate m X_val y_val (batchsize self)) (Ok (ALossAcc loss r))
      ∈ new_events (get_rewards fw self actions) st.
Proof.
  explore self actions st; intros H; try discriminate H.
  injection H as <-. do 6 eexists. split; [reflexivity|].
  rewrite !elem_of_cons. auto 12.
Qed.

(** C3, amended: every call of [get_rewards] makes the steps of the
    training loop in this order: the model built from the actions,
    [compile], [fit] with a checkpoint that saves the best weights, the
    reload of these weights, [evaluate]; the steps made are an initial
    part of this sequence, whatever the manager, the dataset and the
    framework do; the model is built from the actions given, the only
    callback of the fit is the checkpoint that saves the best weights,
    and the weights reloaded are those of the checkpoint's file.  On a
    manager with [use_generator=False], when the dataset holds four
    arrays and no step raises, the call makes all five steps, after a
    new graph and session, and returns one scalar, the accuracy. *)
Theorem training_steps_in_order self actions st :
  steps_made (new_events (get_rewards fw self actions) st)
    `prefix_of` [BuildModel; CompileModel; FitModel; ReloadBest; EvaluateModel]
  /\
  (forall c r,
     Called c r ∈ new_events (get_rewards fw self actions) st ->
     match c with
     | ModelFn a => a = actions
     | Fit _ _ _ _ _ _ _ callbacks => callbacks = [checkpoint (monitor self)]
     | FitGenerator _ _ _ _ _ _ _ callbacks =>
         callbacks = [checkpoint "val_acc"]
     | LoadWeights _ path => path = filepath (checkpoint (monitor self))
     | _ => True
     end)
  /\
  (use_generator self = false ->
   forall X_train y_train X_val y_val,
     dataset self = [X_train; y_train; X_val; y_val] ->
     (forall c e,
        Called c (Raise e) ∉ new_events (get_rewards fw self actions) st) ->
     exists m loss r,
       (get_rewards fw self actions st).2 = Ok r /\
       new_events (get_rewards fw self actions) st =
         [NewGraph (next_id st);
          NewSession (S (next_id st)) (next_id st);
          EnterSession (S (next_id st));
          SetSession (S (next_id st));
          Called (ModelFn actions) (Ok (AModel m));
          Called (Compile m adam "categorical_crossentropy" ["accuracy"])
            (Ok ANone);
          Called (Fit m X_train y_train (batchsize self) (epochs self) 1
                    (X_val, y_val)
                    [{| filepath := "weights/temp_network.h5";
                        monitor_ := monitor self; verbose_ := 1;
                        save_best_only := true;
                        save_weights_only := true |}])
            (Ok ANone);
          Called (LoadWeights m "weights/temp_network.h5") (Ok ANone);
          Called (Evaluate m X_val y_val (batchsize self))
            (Ok (ALossAcc loss r));
          Printed [];
          Printed [PStr "Manager: Accuracy = "; PScalar r];
          ExitSession (S (next_id st));
          CloseSession (S (next_id st))]).
Proof.
  explore self actions st;
    (split; [eexists; reflexivity|]);
    (split;
     [intros c r Hin; among Hin; first [reflexivity|exact I]
     |intros Hgen X_train y_train X_val y_val Hdata Hquiet;
      try discriminate Hgen;
      try discriminate Hdata;
      try (exfalso; eapply Hquiet; rewrite !elem_of_cons; auto 12; fail)]).
  injection Hdata as <- <- <- <-. do 3 eexists. split; reflexivity.
Qed.

(** C5: with [use_generator=True], [get_rewards] never returns: it
    raises; [evaluate] is never called; and when the weights have been
    reloaded, the exception is the [UnboundLocalError] (a [NameError])
    for [X_val]. *)
Theorem generator_manager_never_returns self actions st :
  use_generator self = true ->
  (exists e, (get_rewards fw self actions st).2 = Raise e /\
     ((exists m path, Called (LoadWeights m path) (Ok ANone)
                        ∈ new_events (get_rewards fw self actions) st) ->
      e = UnboundLocalError "X_val" /\ is_NameError e = true)) /\
  (forall m x y b res,
     Called (Evaluate m x y b) res
       ∉ new_events (get_rewards fw self actions) st).
Proof.
  intros Hgen.
  explore self actions st; try congruence;
    (split;
     [eexists; split; [try reflexivity|];
      try (intros (m' & path & Hin); among Hin); try (split; reflexivity)
     |intros m' x' y' b' res Hin; among Hin]).
  all: try (intros _; split; reflexivity).
Qed.

(** C6: an exception raised by the model-building function or by
    [compile], [fit], [fit_generator], [load_weights] or [evaluate] is
    the exception that [get_rewards] raises: nothing is caught,
    translated or suppressed. *)
Theorem framework_exception_propagates self actions st c e :
  Called c (Raise e) ∈ new_events (get_rewards fw self actions) st ->
  (get_rewards fw self actions st).2 = Raise e.
Proof.
  explore self actions st; intros Hin; among Hin; reflexivity.
Qed.

Lemma closed_not_open (X : gset nat) (s : nat) :
  s ∉ (({[s]} ∪ X) ∖ {[s]}).
Proof.
  rewrite elem_of_difference, elem_of_singleton. intros [_ H]. apply H.
  reflexivity.
Qed.

Lemma closed_twice (X : gset nat) (s : nat) :
  (({[s]} ∪ X) ∖ {[s]}) ∖ {[s]} = ({[s]} ∪ X) ∖ {[s]}.
Proof.
  apply set_eq. intros x. rewrite !elem_of_difference. tauto.
Qed.

Lemma opened_and_closed (X : gset nat) (s : nat) :
  ({[s]} ∪ X) ∖ {[s]} = X ∖ {[s]}.
Proof.
  apply set_eq. intros x.
  rewrite !elem_of_difference, elem_of_union. tauto.
Qed.

(** C7: every call of [get_rewards] begins with a new graph and a new
    session on it, entered and given to the backend, before anything
    else; no other session is created; the session is closed when the
    call ends, by return or by exception, and the sessions open after
    the call are those that were open before it. *)
Theorem session_created_first_and_closed self actions st :
  let g := next_id st in
  let s := S (next_id st) in
  let st' := (get_rewards fw self actions st).1 in
  exists rest,
    new_events (get_rewards fw self actions) st
      = [NewGraph g; NewSession s g; EnterSession s; SetSession s] ++ rest /\
    (forall s' g', NewSession s' g' ∉ rest) /\
    (ExitSession s ∈ rest) /\
    (s ∉ open_sessions st') /\
    open_sessions st' = open_sessions st ∖ {[s]} /\
    next_id st' = S s.
Proof.
  explore self actions st;
    (eexists; split; [reflexivity|]; split;
     [intros s' g' Hin; among Hin|]; split;
     [rewrite !elem_of_cons; auto 12|];
     rewrite ?closed_twice; split;
     [apply closed_not_open|]; split;
     [apply opened_and_closed|reflexivity]).
Qed.

(** *** More on [get_rewards] *)

(** The element at an index of an explicit list: one case per element. *)
Ltac walk i H :=
  repeat (first [discriminate H|destruct i as [|i]; [|simpl in H]]).

(** X9: after a call into the framework has raised, no other call into
    the framework is made. *)
Theorem nothing_is_called_after_a_failure self actions st (i j : nat) c e c' r' :
  new_events (get_rewards fw self actions) st !! i = Some (Called c (Raise e)) ->
  (i < j)%nat ->
  new_events (get_rewards fw self actions) st !! j <> Some (Called c' r').
Proof.
  explore self actions st; intros Hi Hij Hj; walk i Hi; walk j Hj; lia.
Qed.

(** X10: [get_rewards] never resets the session of the backend: after
    the call, on every path, the backend still holds the session of
    this call, which is closed. *)
Theorem backend_keeps_the_closed_session self actions st :
  backend_session (get_rewards fw self actions st).1 = Some (S (next_id st)) /\
  S (next_id st) ∉ open_sessions (get_rewards fw self actions st).1.
Proof.
  explore self actions st;
    (split; [reflexivity|rewrite ?closed_twice; apply closed_not_open]).
Qed.

(** X11: with [use_generator=True] the settings [monitor] and
    [batchsize] have no effect: the checkpoint monitors ['val_acc'] and
    the batch size is not given to [fit_generator]. *)
Theorem generator_ignores_monitor_and_batchsize self actions st m b :
  use_generator self = true ->
  get_rewards fw self actions st
    = get_rewards fw
        {| dataset := dataset self; epochs := epochs self; batchsize := b;
           use_generator := true; monitor := m |}
        actions st.
Proof.
  intros Hgen. explore self actions st; try congruence; reflexivity.
Qed.


(** X13: whatever is printed is printed by a call that returns, and the
    accuracy shown is the reward returned. *)
Theorem what_is_printed_is_the_reward self actions st args :
  Printed args ∈ new_events (get_rewards fw self actions) st ->
  exists r,
    (get_rewards fw self actions st).2 = Ok r /\
    (args = [] \/ args = [PStr "Manager: Accuracy = "; PScalar r]).
Proof.
  explore self actions st; intros Hin; among Hin; eauto.
Qed.

Lemma session_of_a_call self actions st :
  next_id (get_rewards fw self actions st).1 = S (S (next_id st)) /\
  open_sessions (get_rewards fw self actions st).1
    = open_sessions st ∖ {[S (next_id st)]} /\
  NewSession (S (next_id st)) (next_id st)
    ∈ new_events (get_rewards fw self actions) st.
Proof.
  explore self actions st;
    (split; [reflexivity|]; rewrite ?closed_twice; split;
     [apply opened_and_closed|rewrite !elem_of_cons; auto]).
Qed.

(** X14: two calls, one after the other, work in two sessions, and both
    sessions are closed afterwards: the sessions open after the second
    call are among those open before the first. *)
Theorem consecutive_calls_use_distinct_sessions self1 a1 self2 a2 st :
  let s1 := S (next_id st) in
  let s2 := S (S (S (next_id st))) in
  let st1 := (get_rewards fw self1 a1 st).1 in
  let st2 := (get_rewards fw self2 a2 st1).1 in
  (NewSession s1 (next_id st) ∈ new_events (get_rewards fw self1 a1) st) /\
  (NewSession s2 (S (S (next_id st)))
     ∈ new_events (get_rewards fw self2 a2) st1) /\
  s1 <> s2 /\
  open_sessions st2 = (open_sessions st ∖ {[s1]}) ∖ {[s2]}.
Proof.
  cbv zeta.
  destruct (session_of_a_call self1 a1 st) as (Hid1 & Hopen1 & Hnew1).
  destruct (session_of_a_call self2 a2 (get_rewards fw self1 a1 st).1)
    as (_ & Hopen2 & Hnew2).
  rewrite Hid1 in Hopen2, Hnew2. rewrite Hopen1 in Hopen2.
  split; [assumption|]. split; [assumption|]. split; [lia|assumption].
Qed.

End ManagerFacts.

(** *** The theorems at sample frameworks *)

Section ManagerSamples.
Import Manager.

Lemma reward_is_validation_accuracy_witness :
  exists m X_train y_train X_val y_val loss,
    [10; 11; 12; 13]%nat = [X_train; y_train; X_val; y_val] /\
    Called (Evaluate m X_val y_val 128) (Ok (ALossAcc loss 13%nat))
      ∈ new_events (get_rewards steady (new_manager [10; 11; 12; 13]%nat) 7%nat)
          (initial steady tt).
Proof.
  apply (reward_is_validation_accuracy steady
           (new_manager [10; 11; 12; 13]%nat) 7%nat (initial steady tt) 13%nat).
  vm_compute. reflexivity.
Defined.

Lemma training_steps_in_order_witness :
  steps_made
    (new_events (get_rewards steady (new_manager [10; 11; 12; 13]%nat) 7%nat)
       (initial steady tt))
    `prefix_of` [BuildModel; CompileModel; FitModel; ReloadBest; EvaluateModel]
  /\
  exists m loss r,
    (get_rewards steady (new_manager [10; 11; 12; 13]%nat) 7%nat
       (initial steady tt)).2 = Ok r /\
    new_events (get_rewards steady (new_manager [10; 11; 12; 13]%nat) 7%nat)
      (initial steady tt) =
      [NewGraph 0; NewSession 1 0; EnterSession 1; SetSession 1;
       Called (ModelFn 7%nat) (Ok (AModel m));
       Called (Compile m adam "categorical_crossentropy" ["accuracy"])
         (Ok ANone);
       Called (Fit m 10%nat 11%nat 128 5 1 (12%nat, 13%nat)
                 [{| filepath := "weights/temp_network.h5";
                     monitor_ := "val_acc"; verbose_ := 1;
                     save_best_only := true;
                     save_weights_only := true |}])
         (Ok ANone);
       Called (LoadWeights m "weights/temp_network.h5") (Ok ANone);
       Called (Evaluate m 12%nat 13%nat 128) (Ok (ALossAcc loss r));
       Printed [];
       Printed [PStr "Manager: Accuracy = "; PScalar r];
       ExitSession 1; CloseSession 1].
Proof.
  destruct (training_steps_in_order steady
              (new_manager [10; 11; 12; 13]%nat) 7%nat (initial steady tt))
    as [Hsteps [_ Hall]].
  split; [exact Hsteps|].
  apply (Hall eq_refl 10%nat 11%nat 12%nat 13%nat eq_refl).
  intros c e Hin. vm_compute in Hin.
  repeat (inversion Hin as [|? ? ? Hin']; subst; clear Hin; rename Hin' into Hin).
Defined.

Lemma generator_manager_never_returns_witness :
  (exists e,
     (get_rewards steady (generator_manager [20; 21]%nat) 7%nat
        (initial steady tt)).2 = Raise e /\
     ((exists m path,
         Called (LoadWeights m path) (Ok ANone)
           ∈ new_events
               (get_rewards steady (generator_manager [20; 21]%nat) 7%nat)
               (initial steady tt)) ->
      e = UnboundLocalError "X_val" /\ is_NameError e = true)) /\
  (forall m x y b res,
     Called (Evaluate m x y b) res
       ∉ new_events
           (get_rewards steady (generator_manager [20; 21]%nat) 7%nat)
           (initial steady tt)).
Proof.
  apply (generator_manager_never_returns steady
           (generator_manager [20; 21]%nat) 7%nat (initial steady tt)).
  reflexivity.
Defined.

Lemma framework_exception_propagates_witness :
  (get_rewards failing_fit (new_manager [10; 11; 12; 13]%nat) 7%nat
     (initial failing_fit tt)).2 = Raise (OtherError 1).
Proof.
  apply (framework_exception_propagates failing_fit
           (new_manager [10; 11; 12; 13]%nat) 7%nat (initial failing_fit tt)
           (Fit 7%nat 10%nat 11%nat 128 5 1 (12%nat, 13%nat)
              [checkpoint "val_acc"])).
  vm_compute. repeat constructor.
Defined.

(** C3 as stated fails: when training raises, the weights are not
    reloaded, the model is not evaluated and no number is returned. *)
Lemma failed_fit_ends_the_call :
  (get_rewards failing_fit (new_manager [10; 11; 12; 13]%nat) 7%nat
     (initial failing_fit tt)).2 = Raise (OtherError 1) /\
  new_events (get_rewards failing_fit (new_manager [10; 11; 12; 13]%nat) 7%nat)
    (initial failing_fit tt) =
    [NewGraph 0; NewSession 1 0; EnterSession 1; SetSession 1;
     Called (ModelFn 7%nat) (Ok (AModel 7%nat));
     Called (Compile 7%nat adam "categorical_crossentropy" ["accuracy"])
       (Ok ANone);
     Called (Fit 7%nat 10%nat 11%nat 128 5 1 (12%nat, 13%nat)
               [checkpoint "val_acc"])
       (Raise (OtherError 1));
     ExitSession 1].
Proof. split; vm_compute; reflexivity. Qed.
End ManagerSamples.



(** ** The format of a line *)

Section LineFormat.
Import RankArchitectures.
#[local] Arguments String.append !s1 s2 : simpl nomatch.


Lemma append_assoc (a b c : string) : (a +:+ b) +:+ c = a +:+ b +:+ c.
Proof. induction a as [|x a IH]; simpl; [reflexivity|]. rewrite IH. reflexivity. Qed.

Lemma append_nil_r (a : string) : a +:+ "" = a.
Proof. induction a as [|x a IH]; simpl; [reflexivity|]. rewrite IH. reflexivity. Qed.



(** *** Stripping leaves a literal as it is *)





(** *** Digit parts *)





(** *** [int] accepts an integer literal *)




(** *** [float] accepts a score literal *)









(** *** Fields and lines *)





Lemma split_plain_app f s :
  plain f = true ->
  split "," (f +:+ s) =
    match split "," s with
    | g :: gs => (f +:+ g) :: gs
    | [] => [f]
    end.
Proof.
  induction f as [|c f IH]; simpl.
  - intros _. destruct s as [|d s]; [reflexivity|]. simpl.
    destruct (Ascii.eqb d ","); [reflexivity|].
    destruct (split "," s); reflexivity.
  - intros H. apply andb_true_iff in H as [H Hf].
    apply andb_true_iff in H as [Hc _]. apply negb_true_iff in Hc.
    rewrite Hc, (IH Hf). destruct (split "," s); reflexivity.
Qed.

Lemma split_line init lastf :
  Forall (fun f => plain f = true) (init ++ [lastf]) ->
  split "," (csv_line (init ++ [lastf])) = init ++ [lastf +:+ String LF ""].
Proof.
  unfold csv_line. induction init as [|f init IH]; intros H.
  - simpl. apply Forall_cons in H as [H _].
    rewrite (split_plain_app lastf _ H). reflexivity.
  - apply Forall_cons in H as [Hf H]. specialize (IH H).
    change ((f :: init) ++ [lastf]) with (f :: (init ++ [lastf])).
    destruct (init ++ [lastf]) as [|g rest] eqn:E;
      [destruct init; discriminate|].
    change (join "," (f :: g :: rest))
      with (f +:+ String "," (join "," (g :: rest))).
    rewrite append_assoc, (split_plain_app f _ Hf).
    change (String "," (join "," (g :: rest)) +:+ String LF "")
      with (String "," (join "," (g :: rest) +:+ String LF "")).
    cbn [split]. change (Ascii.eqb "," ",") with true. cbv iota.
    rewrite IH, append_nil_r. reflexivity.
Qed.

Lemma drop_last_app s c : drop_last (s +:+ String c "") = s.
Proof.
  induction s as [|d s IH]; [reflexivity|].
  cbn [String.append drop_last]. rewrite IH.
  destruct s; reflexivity.
Qed.

(** Lines 21 and 22: the fields of the line, the line feed removed. *)
Lemma fields_of_line (fields : list string) :
  fields <> [] -> Forall (fun f => plain f = true) fields ->
  let temp := VStr <$> split "," (csv_line fields) in
  exists last,
    PyList.getitem temp (-1) = Ok last /\
    exists cut,
      slice_drop_last last = Ok cut /\
      PyList.setitem temp (-1) cut = Ok (VStr <$> fields).
Proof.
  intros Hne Hplain.
  destruct (exists_last Hne) as (init & lastf & ->).
  rewrite (split_line init lastf Hplain). cbv zeta.
  assert (Hidx : PyList.index (VStr <$> init ++ [lastf +:+ String LF ""]) (-1)
                 = Some (length init)).
  { unfold PyList.index. rewrite length_fmap, length_app. cbn [length].
    change (-1 <? 0)%Z with true. cbv iota.
    destruct (Z.leb_spec 0 (-1 + Z.of_nat (length init + 1))); [|lia].
    destruct (Z.ltb_spec (-1 + Z.of_nat (length init + 1))
                (Z.of_nat (length init + 1))); [|lia].
    simpl. f_equal. lia. }
  unfold PyList.getitem, PyList.setitem. rewrite Hidx.
  rewrite fmap_app. rewrite lookup_app_r by (rewrite length_fmap; lia).
  rewrite length_fmap, Nat.sub_diag. simpl.
  eexists. split; [reflexivity|]. eexists. split; [reflexivity|].
  rewrite drop_last_app. f_equal.
  rewrite insert_app_r_alt by (rewrite length_fmap; lia).
  rewrite length_fmap, Nat.sub_diag, fmap_app. reflexivity.
Qed.

(** *** The loop over the input ids *)

Lemma index_in_range {A} (l : list A) (i : nat) :
  (i < length l)%nat -> PyList.index l (Z.of_nat i) = Some i.
Proof.
  intros Hi. unfold PyList.index.
  destruct (Z.ltb_spec (Z.of_nat i) 0); [lia|].
  destruct (Z.leb_spec 0 (Z.of_nat i)); [|lia].
  destruct (Z.ltb_spec (Z.of_nat i) (Z.of_nat (length l))); [|lia].
  simpl. f_equal. lia.
Qed.

Lemma convert_step (pre : list value) x rest n :
  py_int x = Ok n ->
  (y ← PyList.getitem (pre ++ x :: rest) (Z.of_nat (length pre));
   n ← py_int y;
   PyList.setitem (pre ++ x :: rest) (Z.of_nat (length pre)) n)
  = Ok (pre ++ n :: rest).
Proof.
  intros Hn. unfold PyList.getitem, PyList.setitem.
  rewrite index_in_range by (rewrite length_app; simpl; lia).
  rewrite list_lookup_middle by reflexivity.
  cbn [mbind result_bind]. rewrite Hn. cbn [mbind result_bind].
  rewrite insert_app_r_alt by lia. rewrite Nat.sub_diag. reflexivity.
Qed.






End LineFormat.

(** ** More on [rank_architectures.py] *)

Section Reading.
Import RankArchitectures.
#[local] Arguments String.append !s1 s2 : simpl nomatch.

(** X1: the loop of lines 31 and 32 changes nothing: field 0 of every
    line read is a float already. *)
Theorem second_conversion_changes_nothing text lines :
  read_lines text = Ok lines -> mapM refloat lines = Ok lines.
Proof.
  intros Hread. apply mapM_Ok.
  pose proof (read_lines_scores text lines Hread) as Hsc. clear Hread.
  induction Hsc as [|line rest [f Hf] _ IH]; constructor; [|assumption].
  apply (refloat_scored line f Hf).
Qed.

Lemma plain_drop_last s : plain s = true -> plain (drop_last s) = true.
Proof.
  induction s as [|c t IH]; [reflexivity|]. cbn [plain]. intros H.
  apply andb_true_iff in H as [Hc Ht].
  destruct t as [|d t]; [reflexivity|].
  change (drop_last (String c (String d t)))
    with (String c (drop_last (String d t))).
  cbn [plain]. rewrite Hc. apply (IH Ht).
Qed.

Lemma split_join init lastf :
  Forall (fun f => plain f = true) (init ++ [lastf]) ->
  split "," (join "," (init ++ [lastf])) = init ++ [lastf].
Proof.
  induction init as [|f init IH]; intros H.
  - simpl. apply Forall_cons in H as [H _].
    pose proof (split_plain_app lastf "" H) as E.
    rewrite append_nil_r in E. rewrite E. simpl. rewrite append_nil_r.
    reflexivity.
  - apply Forall_cons in H as [Hf H]. specialize (IH H).
    change ((f :: init) ++ [lastf]) with (f :: (init ++ [lastf])).
    destruct (init ++ [lastf]) as [|g rest] eqn:E;
      [destruct init; discriminate|].
    change (join "," (f :: g :: rest))
      with (f +:+ String "," (join "," (g :: rest))).
    rewrite (split_plain_app f _ Hf).
    cbn [split]. change (Ascii.eqb "," ",") with true. cbv iota.
    rewrite IH, append_nil_r. reflexivity.
Qed.

Lemma last_field_cut (init : list string) (s cut : string) :
  PyList.getitem (VStr <$> init ++ [s]) (-1) = Ok (VStr s) /\
  PyList.setitem (VStr <$> init ++ [s]) (-1) (VStr cut)
    = Ok (VStr <$> init ++ [cut]).
Proof.
  assert (Hidx : PyList.index (VStr <$> init ++ [s]) (-1) = Some (length init)).
  { unfold PyList.index. rewrite length_fmap, length_app. cbn [length].
    change (-1 <? 0)%Z with true. cbv iota.
    destruct (Z.leb_spec 0 (-1 + Z.of_nat (length init + 1))); [|lia].
    destruct (Z.ltb_spec (-1 + Z.of_nat (length init + 1))
                (Z.of_nat (length init + 1))); [|lia].
    simpl. f_equal. lia. }
  unfold PyList.getitem, PyList.setitem. rewrite Hidx, !fmap_app.
  rewrite lookup_app_r by (rewrite length_fmap; lia).
  rewrite length_fmap, Nat.sub_diag. split; [reflexivity|].
  rewrite insert_app_r_alt by (rewrite length_fmap; lia).
  rewrite length_fmap, Nat.sub_diag. reflexivity.
Qed.

(** X2: line 22 removes the last character whatever it is: a last line
    without a line feed is parsed as the same line with the last
    character of its last field removed. *)
Theorem line_without_line_feed_loses_a_character init lastf :
  Forall (fun f => plain f = true) (init ++ [lastf]) ->
  parse_line (join "," (init ++ [lastf]))
    = parse_line (csv_line (init ++ [drop_last lastf])).
Proof.
  intros H.
  assert (H' : Forall (fun f => plain f = true) (init ++ [drop_last lastf])).
  { apply Forall_app in H as [Hinit Hlast]. apply Forall_app. split; [assumption|].
    apply Forall_cons in Hlast as [Hlast _].
    constructor; [apply plain_drop_last, Hlast|constructor]. }
  unfold parse_line.
  rewrite (split_join init lastf H), (split_line init (drop_last lastf) H').
  destruct (last_field_cut init lastf (drop_last lastf)) as [-> E1].
  destruct (last_field_cut init (drop_last lastf +:+ String LF "")
              (drop_last lastf)) as [-> E2].
  cbn [mbind result_bind slice_drop_last]. rewrite drop_last_app, E1, E2.
  reflexivity.
Qed.

Lemma to_float_error s e : Str.to_float s = Raise e -> e = ValueError.
Proof.
  unfold Str.to_float. destruct (Str.sign _) as [neg body].
  destruct (_ || _); [discriminate|].
  destruct (String.eqb _ "nan"); [discriminate|].
  destruct (Str.number body) as [[[ds fs] r]|]; [|intros [= <-]; reflexivity].
  destruct (Str.exponent r) as [[x [|c t]]|]; try discriminate;
    intros [= <-]; reflexivity.
Qed.

Lemma to_int_error s e : Str.to_int s = Raise e -> e = ValueError.
Proof.
  unfold Str.to_int. destruct (Str.sign _) as [neg body].
  destruct (Str.digitpart body) as [[ds [|c t]]|];
    [destruct (_ <? _)%nat; [|discriminate]|..];
    intros [= <-]; reflexivity.
Qed.

(** X3: a line whose field 0 is not a number that [float] reads raises
    [ValueError], whatever its other fields are. *)
Theorem score_not_a_number_raises sc rest e :
  Forall (fun f => plain f = true) (sc :: rest) ->
  Str.to_float sc = Raise e ->
  parse_line (csv_line (sc :: rest)) = Raise ValueError.
Proof.
  intros Hplain Hsc. apply to_float_error in Hsc as Heq. subst e.
  destruct (fields_of_line (sc :: rest))
    as (last & Hlast & cut & Hcut & Hset); [discriminate|assumption|].
  unfold parse_line. rewrite Hlast. cbn [mbind result_bind].
  rewrite Hcut. cbn [mbind result_bind]. rewrite Hset.
  cbn [mbind result_bind fmap list_fmap].
  change (PyList.getitem (VStr sc :: _) 0) with (Ok (A:=value) (VStr sc)).
  cbn [mbind result_bind py_float]. rewrite Hsc. reflexivity.
Qed.

Lemma convert_step_fails (pre : list value) x rest e :
  py_int x = Raise e ->
  (y ← PyList.getitem (pre ++ x :: rest) (Z.of_nat (length pre));
   n ← py_int y;
   PyList.setitem (pre ++ x :: rest) (Z.of_nat (length pre)) n)
  = Raise e.
Proof.
  intros Hn. unfold PyList.getitem.
  rewrite index_in_range by (rewrite length_app; simpl; lia).
  rewrite list_lookup_middle by reflexivity.
  cbn [mbind result_bind]. rewrite Hn. reflexivity.
Qed.

Lemma convert_fails good zs :
  Forall2 (fun p z => Str.to_int p.1 = Ok z) good zs ->
  forall pre fuel stop bad rest e,
    Str.to_int bad = Raise e ->
    (Z.of_nat (length pre) + 2 * Z.of_nat (length good) < stop)%Z ->
    (length good < fuel)%nat ->
    PyList.for_each
      (fun temp i =>
         x ← PyList.getitem temp i;
         n ← py_int x;
         PyList.setitem temp i n)
      (pre ++ (VStr <$> flat_map id_then_name good) ++ VStr bad :: rest)
      (PyList.range_from fuel (Z.of_nat (length pre)) stop 2)
    = Raise e.
Proof.
  intros H. induction H as [|p z ps zs' Hz _ IH];
    intros pre fuel stop bad rest e Hbad Hstop Hfuel;
    (destruct fuel as [|fuel]; [simpl in Hfuel; lia|]);
    cbn [length] in *; cbn [PyList.range_from];
    (destruct (Z.ltb_spec (Z.of_nat (length pre)) stop); [|lia]).
  - cbn [PyList.for_each flat_map fmap list_fmap app].
    rewrite (convert_step_fails pre (VStr bad) rest e)
      by (cbn [py_int mbind result_bind]; rewrite Hbad; reflexivity).
    reflexivity.
  - cbn [PyList.for_each flat_map id_then_name app fmap list_fmap].
    rewrite (convert_step pre (VStr p.1) _ (VInt z))
      by (cbn [py_int mbind result_bind]; rewrite Hz; reflexivity).
    specialize (IH (pre ++ [VInt z; VStr p.2]) fuel stop bad rest e Hbad).
    rewrite length_app in IH. cbn [length] in IH.
    replace (Z.of_nat (length pre) + 2)%Z
      with (Z.of_nat (length pre + 2)) by lia.
    rewrite <- app_assoc in IH. cbn [app] in IH.
    apply IH; lia.
Qed.

Lemma length_id_then_name (pairs : list (string * string)) :
  length (flat_map id_then_name pairs) = (2 * length pairs)%nat.
Proof. induction pairs; simpl; lia. Qed.

(** X4: a line whose score is a number and in which an input id (a
    field at an odd index) is not an integer that [int] reads raises
    [ValueError], whatever comes after that id. *)
Theorem id_not_an_integer_raises sc f good zs bad name more e :
  Forall (fun x => plain x = true)
    (sc :: flat_map id_then_name (good ++ (bad, name) :: more)) ->
  Str.to_float sc = Ok f ->
  Forall2 (fun p z => Str.to_int p.1 = Ok z) good zs ->
  Str.to_int bad = Raise e ->
  parse_line (csv_line (sc :: flat_map id_then_name (good ++ (bad, name) :: more)))
    = Raise ValueError.
Proof.
  intros Hplain Hf Hzs Hbad. apply to_int_error in Hbad as Heq. subst e.
  destruct (fields_of_line
              (sc :: flat_map id_then_name (good ++ (bad, name) :: more)))
    as (last & Hlast & cut & Hcut & Hset); [discriminate|assumption|].
  unfold parse_line. rewrite Hlast. cbn [mbind result_bind].
  rewrite Hcut. cbn [mbind result_bind]. rewrite Hset.
  cbn [mbind result_bind fmap list_fmap].
  change (PyList.getitem (VStr sc :: _) 0) with (Ok (A:=value) (VStr sc)).
  cbn [mbind result_bind py_float]. rewrite Hf. cbn [mbind result_bind].
  change (PyList.setitem (VStr sc :: ?l) 0 (VFloat f)) with (Ok (VFloat f :: l)).
  unfold convert_ids, PyList.range.
  rewrite flat_map_app, fmap_app. cbn [flat_map id_then_name app fmap list_fmap].
  apply (convert_fails good zs Hzs [VFloat f]); [assumption| |];
    cbn [length]; rewrite length_app, !length_fmap, length_id_then_name;
    cbn [length]; lia.
Qed.


Lemma mapM_Raise {A B} (f : A -> result B) good bad rest e :
  Forall (fun a => exists b, f a = Ok b) good ->
  f bad = Raise e ->
  mapM f (good ++ bad :: rest) = Raise e.
Proof.
  intros Hgood Hbad. induction Hgood as [|a l [b Hb] _ IH]; simpl.
  - rewrite Hbad. reflexivity.
  - rewrite Hb. cbn [mbind result_bind]. rewrite IH. reflexivity.
Qed.

(** X5: the lines are printed only after the whole file is read: when a
    line does not parse, nothing is printed, not even the lines before
    it, and the script ends with the exception of the first such
    line. *)
Theorem unparsable_line_prints_nothing f fs text good bad rest e :
  fs !! input_file f = Some (File text) ->
  file_lines (universal_newlines text) = good ++ bad :: rest ->
  Forall (fun l => exists row, parse_line l = Ok row) good ->
  parse_line bad = Raise e ->
  main f fs = {| stdout := []; opened := [input_file f];
                 outcome := Uncaught e |}.
Proof.
  intros Hfs Hlines Hgood Hbad. unfold main. rewrite Hfs.
  unfold read_lines. rewrite Hlines, (mapM_Raise parse_line good bad rest e Hgood Hbad).
  reflexivity.
Qed.

(** X8: the message is printed when the input file is missing and only
    then. *)
Theorem message_only_when_file_missing f fs :
  [PValue (VStr message)] ∈ stdout (main f fs) <-> fs !! input_file f = None.
Proof.
  split.
  - destruct (fs !! input_file f) as [[text|]|] eqn:Hfs; [| |reflexivity].
    + destruct (read_lines text) as [lines|e] eqn:Hread.
      * destruct (main_on_file f fs text lines Hfs Hread)
          as (keys & out & _ & Hshows & ->). simpl. intros Hin.
        apply list_elem_of_lookup in Hin as [i Hi].
        destruct (Forall2_lookup_l _ _ _ _ _ Hshows Hi)
          as (line & _ & first & rest & _ & Heq).
        discriminate Heq.
      * unfold main. rewrite Hfs, Hread. simpl. intros Hin.
        apply elem_of_nil in Hin. destruct Hin.
    + unfold main. rewrite Hfs. simpl. intros Hin.
      apply elem_of_nil in Hin. destruct Hin.
  - intros Hfs. unfold main. rewrite Hfs. simpl.
    apply list_elem_of_singleton. reflexivity.
Qed.
End Reading.


(** ** More on the order of the lines printed *)

Section Order.
Import RankArchitectures.

#[local] Abbreviation by_key :=
  (fun p q : spec_float * list value => Float.lt (fst p) (fst q)).
#[local] Abbreviation has_number :=
  (fun p : spec_float * list value => Float.is_nan p.1 = false).

Lemma ge_not_nan x y :
  Float.ge x y = true -> Float.is_nan x = false /\ Float.is_nan y = false.
Proof. destruct x, y; simpl; (discriminate || auto). Qed.

Lemma ge_not_lt x y : Float.ge x y = true -> Float.lt x y = false.
Proof.
  intros H. destruct (ge_not_nan x y H) as [Hx Hy].
  apply not_true_is_false. rewrite (lt_rank x y Hx Hy), lex_compare_Lt.
  unfold Float.ge, SFleb in H. rewrite (compare_rank y x Hy Hx) in H.
  unfold Float.lex_compare in H.
  destruct (Z.compare_spec (Float.rank y).1.1 (Float.rank x).1.1),
    (Z.compare_spec (Float.rank y).1.2 (Float.rank x).1.2),
    (Z.compare_spec (Float.rank y).2 (Float.rank x).2);
    (discriminate || lia).
Qed.

Lemma not_lt_eq x y :
  Float.is_nan x = false -> Float.is_nan y = false ->
  Float.lt x y = false -> Float.lt y x = false -> Float.eq x y = true.
Proof.
  intros Hx Hy Hxy Hyx. apply not_true_iff_false in Hxy, Hyx.
  rewrite lt_rank, lex_compare_Lt in Hxy, Hyx by assumption.
  unfold Float.eq, SFeqb. rewrite (compare_rank x y Hx Hy).
  unfold Float.lex_compare.
  destruct (Z.compare_spec (Float.rank x).1.1 (Float.rank y).1.1),
    (Z.compare_spec (Float.rank x).1.2 (Float.rank y).1.2),
    (Z.compare_spec (Float.rank x).2 (Float.rank y).2);
    (reflexivity || lia).
Qed.

Lemma StronglySorted_of_lookup {A} (R : A -> A -> Prop) l :
  (forall (i j : nat) x y,
     (i < j)%nat -> l !! i = Some x -> l !! j = Some y -> R x y) ->
  StronglySorted R l.
Proof.
  induction l as [|a l IH]; intros H; [constructor|].
  constructor.
  - apply IH. intros i j x y Hij Hi Hj. apply (H (S i) (S j)); [lia|assumption..].
  - apply Forall_lookup. intros j y Hj. apply (H 0%nat (S j)); [lia|reflexivity|assumption].
Qed.

(** A list in descending order of its keys, none a NaN, is left as it is
    by [list.sort(reverse=True)]. *)
Lemma list_sort_reverse_of_sorted (pairs : list (spec_float * list value)) :
  Forall has_number pairs ->
  StronglySorted (fun p q => by_key p q = false) pairs ->
  PyList.list_sort_reverse by_key pairs = pairs.
Proof.
  intros Hok Hs. unfold PyList.list_sort_reverse.
  assert (Forall has_number (rev pairs)) as Hrev
    by (rewrite <- Permutation_rev; assumption).
  rewrite (list_sort_eq by_key has_number); [| | | |exact Hrev].
  - unfold PyList.insertion_sort.
    rewrite (fold_insert_ascending_id by_key (rev pairs) []).
    + apply rev_involutive.
    + apply (ascending_rev (fun a b => by_key b a) pairs Hs).
  - intros p. apply lt_irrefl.
  - intros p q r. apply lt_trans.
  - intros p q r. apply lt_negtrans.
Qed.

(** X6: a file whose lines are already in non-increasing order of the
    score, none a NaN, is printed line by line in the order of the
    file. *)
Theorem ranked_file_is_printed_in_file_order f fs text lines :
  fs !! input_file f = Some (File text) ->
  read_lines text = Ok lines ->
  existsb nan_score lines = false ->
  non_increasing lines ->
  printed_line <$> stdout (main f fs) = lines.
Proof.
  intros Hfs Hread Hnan Hord.
  destruct (main_on_file f fs text lines Hfs Hread)
    as (keys & out & Hkeys & Hshows & ->).
  simpl. rewrite (shows_printed_line _ _ Hshows).
  unfold PyList.sorted_reverse.
  rewrite list_sort_reverse_of_sorted.
  - apply snd_zip. rewrite (Forall2_length _ _ _ Hkeys). lia.
  - apply keyed_not_nan; assumption.
  - apply StronglySorted_of_lookup. intros i j p q Hij Hp Hq.
    apply lookup_zip_with_Some in Hp as (x & a & -> & Hx & Ha).
    apply lookup_zip_with_Some in Hq as (y & b & -> & Hy & Hb).
    simpl. apply ge_not_lt. apply (Hord i j a b); try assumption.
    + apply (Forall2_lookup_lr _ _ _ _ _ _ Hkeys Ha Hx).
    + apply (Forall2_lookup_lr _ _ _ _ _ _ Hkeys Hb Hy).
Qed.

Lemma zip_keyed lines keys :
  Forall2 (fun line k => score line = Some k) lines keys ->
  zip keys lines
    = (fun line => (match score line with Some k => k | None => Float.nan end,
                    line)) <$> lines.
Proof.
  intros H. induction H as [|line k ls ks Hk _ IH]; [reflexivity|].
  cbn [zip zip_with fmap list_fmap]. f_equal; [|exact IH].
  rewrite Hk. reflexivity.
Qed.

Lemma shows_one_way out1 out2 lines :
  Forall2 shows out1 lines -> Forall2 shows out2 lines -> out1 = out2.
Proof.
  intros H. revert out2.
  induction H as [|p line ps ls (first & rest & -> & ->) _ IH];
    intros out2 H2; inversion H2 as [|q ? qs ? (first' & rest' & E & ->) Hqs];
    subst; [reflexivity|].
  injection E as <- <-. f_equal. apply IH, Hqs.
Qed.

(** X7: the order of the file does not matter when there are no ties:
    two files that hold the same lines in different orders, with no NaN
    score and equal scores only on identical lines, give the same
    output. *)
Theorem ranking_ignores_file_order f1 fs1 text1 f2 fs2 text2 lines1 lines2 :
  fs1 !! input_file f1 = Some (File text1) ->
  fs2 !! input_file f2 = Some (File text2) ->
  read_lines text1 = Ok lines1 ->
  read_lines text2 = Ok lines2 ->
  lines1 ≡ₚ lines2 ->
  existsb nan_score lines1 = false ->
  (forall a b x y,
     a ∈ lines1 -> b ∈ lines1 -> score a = Some x -> score b = Some y ->
     Float.eq x y = true -> a = b) ->
  stdout (main f1 fs1) = stdout (main f2 fs2).
Proof.
  intros Hfs1 Hfs2 Hread1 Hread2 Hperm Hnan Hties.
  destruct (main_on_file f1 fs1 text1 lines1 Hfs1 Hread1)
    as (keys1 & out1 & Hkeys1 & Hshows1 & ->).
  destruct (main_on_file f2 fs2 text2 lines2 Hfs2 Hread2)
    as (keys2 & out2 & Hkeys2 & Hshows2 & ->).
  simpl. unfold PyList.sorted_reverse in *.
  assert (Hzip : zip keys1 lines1 ≡ₚ zip keys2 lines2)
    by (rewrite (zip_keyed _ _ Hkeys1), (zip_keyed _ _ Hkeys2), Hperm;
        reflexivity).
  assert (Hok1 : Forall has_number (zip keys1 lines1))
    by (apply keyed_not_nan; assumption).
  assert (Hok2 : Forall has_number (zip keys2 lines2))
    by (rewrite <- Hzip; assumption).
  assert (Hinv : Forall (fun p => score p.2 = Some p.1 /\ p.2 ∈ lines1)
                   (zip keys1 lines1)).
  { rewrite (zip_keyed _ _ Hkeys1). apply Forall_fmap, Forall_forall.
    intros line Hin. simpl. split; [|assumption].
    apply list_elem_of_lookup in Hin as [i Hi].
    destruct (Forall2_lookup_l _ _ _ _ _ Hkeys1 Hi) as (k & _ & ->).
    reflexivity. }
  assert (PyList.list_sort_reverse by_key (zip keys1 lines1)
          = PyList.list_sort_reverse by_key (zip keys2 lines2)) as E.
  { apply (StronglySorted_unique_strong (fun p q => by_key p q = false)).
    - intros p q Hp Hq Hpq Hqp.
      rewrite list_sort_reverse_perm in Hp.
      rewrite list_sort_reverse_perm, <- Hzip in Hq.
      rewrite Forall_forall in Hinv, Hok1.
      destruct (Hinv p Hp) as [Hsp Hinp], (Hinv q Hq) as [Hsq Hinq].
      assert (p.2 = q.2) as Hlines.
      { apply (Hties p.2 q.2 p.1 q.1 Hinp Hinq Hsp Hsq).
        apply not_lt_eq; [apply (Hok1 p Hp)|apply (Hok1 q Hq)|assumption..]. }
      destruct p as [x a], q as [y b]. simpl in *. subst b.
      rewrite Hsp in Hsq. injection Hsq as ->. reflexivity.
    - apply (list_sort_reverse_descending by_key has_number);
        [intros p; apply lt_irrefl|intros p q r; apply lt_trans
        |intros p q r; apply lt_negtrans|assumption].
    - apply (list_sort_reverse_descending by_key has_number);
        [intros p; apply lt_irrefl|intros p q r; apply lt_trans
        |intros p q r; apply lt_negtrans|assumption].
    - rewrite !list_sort_reverse_perm. exact Hzip. }
  rewrite E in Hshows1. apply (shows_one_way _ _ _ Hshows1 Hshows2).
Qed.
End Order.


(** ** The further theorems at sample inputs *)

Section MoreSamples.
Import RankArchitectures.

Lemma second_conversion_changes_nothing_witness :
  mapM refloat
    [[VFloat (S754_finite false 4503599627370496 (-53));
      VInt 0; VStr "3x3 conv"];
     [VFloat (S754_finite false 6755399441055744 (-53));
      VInt 1; VStr "5x5 conv"];
     [VFloat (S754_finite false 4503599627370496 (-53));
      VInt 2; VStr "3x3 maxpool"]]
  = Ok [[VFloat (S754_finite false 4503599627370496 (-53));
         VInt 0; VStr "3x3 conv"];
        [VFloat (S754_finite false 6755399441055744 (-53));
         VInt 1; VStr "5x5 conv"];
        [VFloat (S754_finite false 4503599627370496 (-53));
         VInt 2; VStr "3x3 maxpool"]].
Proof.
  apply (second_conversion_changes_nothing history). vm_compute. reflexivity.
Defined.

Lemma line_without_line_feed_loses_a_character_witness :
  parse_line (join "," (["0.75"; "1"] ++ ["5x5 conv"]))
    = parse_line (csv_line (["0.75"; "1"] ++ [drop_last "5x5 conv"])).
Proof.
  apply (line_without_line_feed_loses_a_character ["0.75"; "1"] "5x5 conv").
  repeat constructor.
Defined.

Lemma score_not_a_number_raises_witness :
  parse_line (csv_line ["score"; "0"; "3x3 conv"]) = Raise ValueError.
Proof.
  apply (score_not_a_number_raises "score" ["0"; "3x3 conv"] ValueError).
  - repeat constructor.
  - vm_compute. reflexivity.
Defined.

Lemma id_not_an_integer_raises_witness :
  parse_line
    (csv_line ("0.5" :: flat_map id_then_name
                          ([("0", "3x3 conv")] ++ ("1.5", "5x5 conv") :: [])))
    = Raise ValueError.
Proof.
  apply (id_not_an_integer_raises "0.5"
           (S754_finite false 4503599627370496 (-53))
           [("0", "3x3 conv")] [0%Z] "1.5" "5x5 conv" [] ValueError).
  - repeat constructor.
  - vm_compute. reflexivity.
  - repeat constructor.
  - vm_compute. reflexivity.
Defined.

Lemma unparsable_line_prints_nothing_witness :
  main None (only (text_of_lines ["0.5,0,a"; ""; "0.75,1,b"]))
    = {| stdout := []; opened := [input_file None];
         outcome := Uncaught ValueError |}.
Proof.
  apply (unparsable_line_prints_nothing None
           (only (text_of_lines ["0.5,0,a"; ""; "0.75,1,b"]))
           (text_of_lines ["0.5,0,a"; ""; "0.75,1,b"])
           [csv_line ["0.5"; "0"; "a"]] (String LF "")
           [csv_line ["0.75"; "1"; "b"]] ValueError).
  - vm_compute. reflexivity.
  - vm_compute. reflexivity.
  - constructor; [|constructor]. eexists. vm_compute. reflexivity.
  - vm_compute. reflexivity.
Defined.

Lemma ranked_file_is_printed_in_file_order_witness :
  printed_line
    <$> stdout (main None (only (text_of_lines ["0.75,1,b"; "0.5,0,a"; "0.5,2,c"])))
  = [[VFloat (S754_finite false 6755399441055744 (-53)); VInt 1; VStr "b"];
     [VFloat (S754_finite false 4503599627370496 (-53)); VInt 0; VStr "a"];
     [VFloat (S754_finite false 4503599627370496 (-53)); VInt 2; VStr "c"]].
Proof.
  apply (ranked_file_is_printed_in_file_order None
           (only (text_of_lines ["0.75,1,b"; "0.5,0,a"; "0.5,2,c"]))
           (text_of_lines ["0.75,1,b"; "0.5,0,a"; "0.5,2,c"])).
  - vm_compute. reflexivity.
  - vm_compute. reflexivity.
  - vm_compute. reflexivity.
  - intros i j a b x y Hij Ha Hb Hx Hy.
    destruct i as [|[|[|i]]]; simpl in Ha; try discriminate Ha;
      injection Ha as <-; injection Hx as <-;
      (destruct j as [|[|[|j]]]; simpl in Hb; try discriminate Hb; try lia;
       injection Hb as <-; injection Hy as <-; vm_compute; reflexivity).
Defined.

Lemma ranking_ignores_file_order_witness :
  stdout (main None (only (text_of_lines ["0.5,0,a"; "0.75,1,b"])))
  = stdout (main None (only (text_of_lines ["0.75,1,b"; "0.5,0,a"]))).
Proof.
  apply (ranking_ignores_file_order
           None (only (text_of_lines ["0.5,0,a"; "0.75,1,b"]))
           (text_of_lines ["0.5,0,a"; "0.75,1,b"])
           None (only (text_of_lines ["0.75,1,b"; "0.5,0,a"]))
           (text_of_lines ["0.75,1,b"; "0.5,0,a"])
           [[VFloat (S754_finite false 4503599627370496 (-53)); VInt 0; VStr "a"];
            [VFloat (S754_finite false 6755399441055744 (-53)); VInt 1; VStr "b"]]
           [[VFloat (S754_finite false 6755399441055744 (-53)); VInt 1; VStr "b"];
            [VFloat (S754_finite false 4503599627370496 (-53)); VInt 0; VStr "a"]]).
  - vm_compute. reflexivity.
  - vm_compute. reflexivity.
  - vm_compute. reflexivity.
  - vm_compute. reflexivity.
  - apply perm_swap.
  - vm_compute. reflexivity.
  - intros a b x y Ha Hb Hx Hy Heq.
    apply elem_of_cons in Ha as [->|Ha];
      [|apply list_elem_of_singleton in Ha as ->];
      (apply elem_of_cons in Hb as [->|Hb];
       [|apply list_elem_of_singleton in Hb as ->]);
      injection Hx as <-; injection Hy as <-;
      try reflexivity; vm_compute in Heq; discriminate Heq.
Defined.


End MoreSamples.

Section MoreManagerSamples.
Import Manager.

Lemma nothing_is_called_after_a_failure_witness :
  new_events (get_rewards failing_fit (new_manager [10; 11; 12; 13]%nat) 7%nat)
    (initial failing_fit tt) !! 7%nat
  <> Some (Called (LoadWeights 7%nat weights_file) (Ok ANone)).
Proof.
  apply (nothing_is_called_after_a_failure failing_fit
           (new_manager [10; 11; 12; 13]%nat) 7%nat (initial failing_fit tt)
           6%nat 7%nat
           (Fit 7%nat 10%nat 11%nat 128 5 1 (12%nat, 13%nat)
              [checkpoint "val_acc"])
           (OtherError 1)).
  - vm_compute. reflexivity.
  - lia.
Defined.

Lemma generator_ignores_monitor_and_batchsize_witness :
  get_rewards steady (generator_manager [20; 21]%nat) 7%nat (initial steady tt)
  = get_rewards steady
      {| dataset := [20; 21]%nat; epochs := 5; batchsize := 32;
         use_generator := true; monitor := "val_loss" |}
      7%nat (initial steady tt).
Proof.
  apply (generator_ignores_monitor_and_batchsize steady
           (generator_manager [20; 21]%nat) 7%nat (initial steady tt)
           "val_loss" 32%Z).
  reflexivity.
Defined.


Lemma what_is_printed_is_the_reward_witness :
  exists r,
    (get_rewards steady (new_manager [10; 11; 12; 13]%nat) 7%nat
       (initial steady tt)).2 = Ok r /\
    ([PStr "Manager: Accuracy = "; PScalar 13%nat] = []
     \/ [PStr "Manager: Accuracy = "; PScalar 13%nat]
        = [PStr "Manager: Accuracy = "; PScalar r]).
Proof.
  apply (what_is_printed_is_the_reward steady
           (new_manager [10; 11; 12; 13]%nat) 7%nat (initial steady tt)
           [PStr "Manager: Accuracy = "; PScalar 13%nat]).
  vm_compute. repeat constructor.
Defined.
End MoreManagerSamples.
